(** * Adafruit_CircuitPython_BNO08x: the SHTP driver core of [adafruit_bno080]

    A shallow embedding of [src/adafruit_bno080/__init__.py]: the frame codec
    ([Packet]), the report decoder ([_parse_report_data]), the blocking read
    loop ([_wait_for_packet], [_wait_for_packet_type]) and the device state
    machine ([_handle_packet], [_check_id], [_enable_feature], [initialize]).

    Conventions.
    - Python integers are [Z]; a [bytearray] is a [list byte]; a Python float
      is a primitive binary64 [float]; a dict keyed by report id is a [gmap Z].
    - A Python exception is a value of [Exn]; code that may raise returns a
      [Result].  Methods of the driver thread the instance explicitly and
      return the instance as the exception left it.
    - Textual debug output ([_dbg], [print], the decorators) is not modelled:
      the embedding is the code with [_debug = False].
    - [monotonic()] reads a clock kept in the environment, in whole
      milliseconds; timeouts are given in the same unit.
    - The four transport methods that raise "Not implemented" in this class
      are modelled from the spec on a scripted environment ([World]).
    - A [while] loop is a [Fixpoint] on a bound: the two timed loops compute
      their bound from the timeout, the two [while True] loops and the
      nesting of [initialize] take it as an argument. *)

From Stdlib Require Import ZArith List Lia Bool.
From Stdlib Require Import Strings.Byte.
From Stdlib Require Import Floats.PrimFloat Numbers.Cyclic.Int63.Uint63.
From stdpp Require Import gmap list.

Open Scope Z_scope.

(** ** Exceptions and results *)

Inductive Exn : Type :=
| IndexError                      (* sequence index out of range *)
| KeyError (key : Z)              (* dict lookup of an absent key: UnknownReport *)
| StructError                     (* struct.error: buffer too small for the format *)
| AttributeError                  (* attribute that the instance does not have *)
| ValueError                      (* byte value out of range(0, 256) *)
| Timeout_packet                  (* RuntimeError("Timed out waiting for a packet") *)
| Timeout_channel (channel : Z)   (* RuntimeError("Timed out waiting for a packet on channel", n) *)
| ProtocolViolation               (* RuntimeError("Unsolicted init received before Advertisement") *)
| IdentificationFailed            (* RuntimeError("Could not read ID") *)
| TransportError.                 (* failure surfaced by the injected transport *)

(** [OutOfFuel] is not a Python outcome: it marks a run of the model that was
    cut because the bound given to a loop or to the re-initialisation nesting
    was used up. *)
Inductive Result (A : Type) : Type :=
| Ok (a : A)
| Raise (e : Exn)
| OutOfFuel.

Arguments Ok {A} a.
Arguments Raise {A} e.
Arguments OutOfFuel {A}.

Definition rbind {A B : Type} (r : Result A) (k : A -> Result B) : Result B :=
  match r with
  | Ok a => k a
  | Raise e => Raise e
  | OutOfFuel => OutOfFuel
  end.

Declare Scope result_scope.
Delimit Scope result_scope with result.
Notation "x <-? c ; k" := (rbind c (fun x => k))
  (at level 20, c at level 100, k at level 200, only parsing) : result_scope.
Notation "' pat <-? c ; k" := (rbind c (fun x => match x with pat => k end))
  (at level 20, pat pattern, c at level 100, k at level 200, only parsing)
  : result_scope.

(** ** Bytes, indexing and [struct.unpack_from] *)

Definition byte_val (b : byte) : Z := Z.of_N (Byte.to_N b).

Definition byte_of_Z (z : Z) : byte :=
  match Byte.of_N (Z.to_N (z mod 256)) with
  | Some b => b
  | None => x00
  end.

(** [buf[i]] for a constant index [i >= 0]. *)
Definition getitem (buf : list byte) (i : nat) : Result Z :=
  match buf !! i with
  | Some b => Ok (byte_val b)
  | None => Raise IndexError
  end.

(** Python list indexing: a negative index counts from the end. *)
Definition py_index {A : Type} (l : list A) (i : Z) : option nat :=
  let n := Z.of_nat (length l) in
  if (0 <=? i) && (i <? n) then Some (Z.to_nat i)
  else if (- n <=? i) && (i <? 0) then Some (Z.to_nat (i + n))
  else None.

(** [l[i] = x] on a Python list. *)
Definition setitem {A : Type} (l : list A) (i : Z) (x : A) : Result (list A) :=
  match py_index l i with
  | Some k => Ok (<[k := x]> l)
  | None => Raise IndexError
  end.

(** The format strings the driver uses: ["<B"], ["<H"], ["<h"], ["<I"]. *)
Inductive Format : Type := fmt_B | fmt_H | fmt_h | fmt_I.

Definition fmt_size (f : Format) : nat :=
  match f with
  | fmt_B => 1
  | fmt_H | fmt_h => 2
  | fmt_I => 4
  end%nat.

Fixpoint le_uint (bs : list byte) : Z :=
  match bs with
  | [] => 0
  | b :: rest => byte_val b + 256 * le_uint rest
  end.

(** [unpack_from(fmt, buf, offset=offset)[0]] for an offset [>= 0]. *)
Definition unpack_from (f : Format) (buf : list byte) (offset : nat) : Result Z :=
  let field := take (fmt_size f) (drop offset buf) in
  if (length field <? fmt_size f)%nat then Raise StructError
  else
    let u := le_uint field in
    Ok (match f with
        | fmt_h => if u <? 32768 then u else u - 65536
        | _ => u
        end).

(** [range(n)]. *)
Definition py_range (n : Z) : list Z := map Z.of_nat (seq 0 (Z.to_nat n)).

(** ** Floats *)

(** [float(z)], exact for [|z| < 2^53]; the driver converts 16-bit values. *)
Definition float_of_int (z : Z) : float :=
  if z <? 0 then PrimFloat.opp (PrimFloat.of_uint63 (Uint63.of_Z (- z)))
  else PrimFloat.of_uint63 (Uint63.of_Z z).

(** ** Constants *)

Definition _BNO_CHANNEL_SHTP_COMMAND : Z := 0.
Definition BNO_CHANNEL_EXE : Z := 1.
Definition _BNO_CHANNEL_CONTROL : Z := 2.
Definition _BNO_CHANNEL_INPUT_SENSOR_REPORTS : Z := 3.
Definition _BNO_CHANNEL_WAKE_INPUT_SENSOR_REPORTS : Z := 4.
Definition _BNO_CHANNEL_GYRO_ROTATION_VECTOR : Z := 5.

Definition _BNO_CMD_SET_FEATURE_COMMAND : Z := 0xFD.
Definition _BNO_CMD_GET_FEATURE_RESPONSE : Z := 0xFC.
Definition _BNO_CMD_BASE_TIMESTAMP : Z := 0xFB.
Definition _SHTP_REPORT_PRODUCT_ID_RESPONSE : Z := 0xF8.
Definition _SHTP_REPORT_PRODUCT_ID_REQUEST : Z := 0xF9.
Definition _BNO_CMD_COMMAND_RESPONSE : Z := 0xF1.

Definition _BNO_REPORT_ACCELEROMETER : Z := 0x01.
Definition _BNO_REPORT_GYROSCOPE : Z := 0x02.
Definition _BNO_REPORT_MAGNETIC_FIELD : Z := 0x03.
Definition _BNO_REPORT_LINEAR_ACCELERATION : Z := 0x04.
Definition _BNO_REPORT_ROTATION_VECTOR : Z := 0x05.

Definition _DEFAULT_REPORT_INTERVAL : Z := 50000.
Definition _BNO_HEADER_LEN : Z := 4.
Definition DATA_BUFFER_SIZE : Z := 512.

(** [2 ** (14 * -1)], [2 ** (9 * -1)], [2 ** (8 * -1)], [2 ** (4 * -1)]. *)
Definition _Q_POINT_14_SCALAR : float := 0x1p-14%float.
Definition _Q_POINT_9_SCALAR : float := 0x1p-9%float.
Definition _Q_POINT_8_SCALAR : float := 0x1p-8%float.
Definition _Q_POINT_4_SCALAR : float := 0x1p-4%float.

Definition _GYRO_SCALAR : float := _Q_POINT_9_SCALAR.
Definition _ACCEL_SCALAR : float := _Q_POINT_8_SCALAR.
Definition _QUAT_SCALAR : float := _Q_POINT_14_SCALAR.
Definition _MAG_SCALAR : float := _Q_POINT_4_SCALAR.

(** The decode table.  In the source the entries for the gyroscope, the
    magnetic field, the linear acceleration and the rotation vector are
    commented out: the dict literal has the accelerometer entry only. *)
Definition _ENABLED_SENSOR_REPORTS : gmap Z (float * Z) :=
  {[ _BNO_REPORT_ACCELEROMETER := (_ACCEL_SCALAR, 3) ]}.

(** [d[k]] on a dict. *)
Definition dict_getitem {V : Type} (d : gmap Z V) (k : Z) : Result V :=
  match d !! k with
  | Some v => Ok v
  | None => Raise (KeyError k)
  end.

(** ** Frame codec: [PacketHeader] and [Packet] *)

Record PacketHeader : Type := mkPacketHeader {
  channel_number : Z;
  sequence_number : Z;
  data_length : Z;
  packet_byte_count : Z
}.

Module Packet.

Record t : Type := mk {
  header : PacketHeader;
  data : list byte
}.

(** [header_from_buffer]: the length word with bit 15 masked off, the
    channel byte, the sequence byte. *)
Definition header_from_buffer (packet_bytes : list byte) : Result PacketHeader :=
  (packet_byte_count <-? unpack_from fmt_H packet_bytes 0;
   let packet_byte_count := Z.land packet_byte_count (Z.lnot 0x8000) in
   channel_number <-? unpack_from fmt_B packet_bytes 2;
   sequence_number <-? unpack_from fmt_B packet_bytes 3;
   let data_length := Z.max 0 (packet_byte_count - 4) in
   Ok (mkPacketHeader channel_number sequence_number data_length
         packet_byte_count))%result.

(** [Packet.__init__]: the payload is the slice
    [packet_bytes[4 : data_length + 4]]. *)
Definition init (packet_bytes : list byte) : Result t :=
  (header <-? header_from_buffer packet_bytes;
   let data_end_index := data_length header + _BNO_HEADER_LEN in
   Ok (mk header
         (take (Z.to_nat data_end_index - Z.to_nat _BNO_HEADER_LEN)
            (drop (Z.to_nat _BNO_HEADER_LEN) packet_bytes))))%result.

Definition report_id (self : t) : Result Z := getitem (data self) 0.

Definition is_error (header : PacketHeader) : bool :=
  if 5 <? channel_number header then true
  else if (packet_byte_count header =? 0xFFFF)
          && (sequence_number header =? 0xFF) then true
  else false.

Definition channel_number (self : t) : Z := channel_number (header self).

End Packet.

(** ** Report decoder *)

(** The body of the [for _offset_idx in range(count)] loop, run over the
    remaining indices with the results appended so far. *)
Fixpoint scale_fields (payload : list byte) (scalar : float)
    (idxs : list Z) (results : list float) : Result (list float) :=
  match idxs with
  | [] => Ok results
  | _offset_idx :: rest =>
      let base_offset := 9 in
      let total_offset := base_offset + _offset_idx * 2 in
      (raw_data <-? unpack_from fmt_h payload (Z.to_nat total_offset);
       let scaled_data := PrimFloat.mul (float_of_int raw_data) scalar in
       scale_fields payload scalar rest (results ++ [scaled_data]))%result
  end.

(** The first two statements of [_parse_report_data]: the report id, read
    from [data[5]] when the packet starts with the base-timestamp marker. *)
Definition resolve_report_id (packet : Packet.t) : Result Z :=
  (report_id <-? Packet.report_id packet;
   if report_id =? _BNO_CMD_BASE_TIMESTAMP then getitem (Packet.data packet) 5
   else Ok report_id)%result.

Definition _parse_report_data (packet : Packet.t) : Result (list float) :=
  (report_id <-? resolve_report_id packet;
   '(scalar, count) <-? dict_getitem _ENABLED_SENSOR_REPORTS report_id;
   scale_fields (Packet.data packet) scalar (py_range count) [])%result.

(** ** The environment: the monotonic clock and the injected transport *)

(** What one poll of the transport's ready signal finds: nothing, or a frame
    whose bytes the transport will deliver. *)
Inductive BusEvent : Type :=
| Idle
| Frame (raw : list byte).

Record World : Type := mkWorld {
  now : Z;                          (* monotonic(), in milliseconds *)
  inbound : list BusEvent;          (* what the coming polls will find *)
  outbound : list (list byte);      (* frames written, the latest first *)
  resets : nat                      (* hard resets requested *)
}.

(** Timeouts are in milliseconds: [_PACKET_READ_TIMEOUT = 15.000] seconds,
    and the default [timeout=5.0] of [_wait_for_packet_type]. *)
Definition _PACKET_READ_TIMEOUT : Z := 15000.
Definition default_timeout : Z := 5000.

(** ** The driver: class [BNO080] *)

(** A value compared with [in] against the elements of a list literal. *)
Inductive PyObj : Type :=
| PyInt (z : Z)
| PyDict (d : gmap Z (float * Z)).

(** [x == o] for an int [x]: an int never equals a dict. *)
Definition int_eq_obj (x : Z) (o : PyObj) : bool :=
  match o with
  | PyInt y => x =? y
  | PyDict _ => false
  end.

(** [x in l] for an int [x] and a list [l]. *)
Definition int_in (x : Z) (l : list PyObj) : bool := existsb (int_eq_obj x) l.

(** [if x:] for an optional int: [None] and [0] are false. *)
Definition truthy (x : option Z) : bool :=
  match x with
  | Some v => negb (v =? 0)
  | None => false
  end.

Module BNO080.

Record t : Type := mk {
  _data_buffer : list byte;
  _sequence_number : list Z;
  _wait_for_initialize : bool;
  _init_complete : bool;
  _id_read : bool;
  _readings : gmap Z (list float);
  world : World
}.

(** A method: it runs on an instance and leaves an outcome and the instance. *)
Definition M (A : Type) : Type := t -> Result A * t.

Definition ret {A : Type} (a : A) : M A := fun self => (Ok a, self).

Definition raise {A : Type} (e : Exn) : M A := fun self => (Raise e, self).

Definition out_of_fuel {A : Type} : M A := fun self => (OutOfFuel, self).

Definition lift {A : Type} (r : Result A) : M A := fun self => (r, self).

Definition bind {A B : Type} (c : M A) (k : A -> M B) : M B :=
  fun self =>
    match c self with
    | (Ok a, self') => k a self'
    | (Raise e, self') => (Raise e, self')
    | (OutOfFuel, self') => (OutOfFuel, self')
    end.

Definition gets {A : Type} (f : t -> A) : M A := fun self => (Ok (f self), self).

Definition modify (f : t -> t) : M unit := fun self => (Ok tt, f self).

Declare Scope driver_scope.
Delimit Scope driver_scope with driver.
Notation "x <-! c ; k" := (bind c (fun x => k))
  (at level 20, c at level 100, k at level 200, only parsing) : driver_scope.
Notation "c ;! k" := (bind c (fun _ => k))
  (at level 100, k at level 200, right associativity, only parsing)
  : driver_scope.

Definition set_data_buffer (v : list byte) (self : t) : t :=
  mk v (_sequence_number self) (_wait_for_initialize self)
    (_init_complete self) (_id_read self) (_readings self) (world self).

Definition set_sequence_number (v : list Z) (self : t) : t :=
  mk (_data_buffer self) v (_wait_for_initialize self)
    (_init_complete self) (_id_read self) (_readings self) (world self).

Definition set_wait_for_initialize (v : bool) (self : t) : t :=
  mk (_data_buffer self) (_sequence_number self) v
    (_init_complete self) (_id_read self) (_readings self) (world self).

Definition set_init_complete (v : bool) (self : t) : t :=
  mk (_data_buffer self) (_sequence_number self) (_wait_for_initialize self)
    v (_id_read self) (_readings self) (world self).

Definition set_id_read (v : bool) (self : t) : t :=
  mk (_data_buffer self) (_sequence_number self) (_wait_for_initialize self)
    (_init_complete self) v (_readings self) (world self).

Definition set_readings (v : gmap Z (list float)) (self : t) : t :=
  mk (_data_buffer self) (_sequence_number self) (_wait_for_initialize self)
    (_init_complete self) (_id_read self) v (world self).

Definition set_world (v : World) (self : t) : t :=
  mk (_data_buffer self) (_sequence_number self) (_wait_for_initialize self)
    (_init_complete self) (_id_read self) (_readings self) v.

(** *** Time *)

Definition monotonic : M Z := gets (fun self => now (world self)).

(** [sleep(seconds)]. *)
Definition sleep (seconds : Z) : M unit :=
  modify (fun self =>
    let w := world self in
    set_world (mkWorld (now w + 1000 * seconds) (inbound w) (outbound w)
                 (resets w)) self).

Definition _elapsed (start_time : Z) : M Z :=
  (t1 <-! monotonic; ret (t1 - start_time))%driver.

(** *** Methods that do not touch the transport *)

Definition _update_sequence_number (new_packet : Packet.t) : M unit :=
  let channel := Packet.channel_number new_packet in
  let seq := sequence_number (Packet.header new_packet) in
  (tracker <-! gets _sequence_number;
   tracker' <-! lift (setitem tracker channel seq);
   modify (set_sequence_number tracker'))%driver.

(** [self._get_data(index, fmt_string)]: the index does not count the
    header, so 4 is added. *)
Definition _get_data (index : Z) (fmt_string : Format) : M Z :=
  let data_index := index + 4 in
  (buf <-! gets _data_buffer;
   lift (unpack_from fmt_string buf (Z.to_nat data_index)))%driver.

(** Returns [None], or the part number. *)
Definition _parse_sensor_id : M (option Z) :=
  (buf <-! gets _data_buffer;
   b4 <-! lift (getitem buf 4);
   if negb (b4 =? _SHTP_REPORT_PRODUCT_ID_RESPONSE) then ret None
   else
     sw_major <-! _get_data 2 fmt_B;
     sw_minor <-! _get_data 3 fmt_B;
     sw_patch <-! _get_data 12 fmt_H;
     sw_part_number <-! _get_data 4 fmt_I;
     sw_build_number <-! _get_data 8 fmt_I;
     ret (Some sw_part_number))%driver.

(** [self._reading] is not an attribute of the instance ([__init__] creates
    [self._readings]): the right-hand side is evaluated, then the lookup of
    the attribute raises. *)
Definition _store_sensor_report (packet : Packet.t) : M unit :=
  (value <-! lift (_parse_report_data packet);
   raise AttributeError)%driver.

(** [pack_into("<I", buf, offset, v)] on a buffer that is long enough. *)
Definition pack_into_I (buf : list byte) (offset : nat) (v : Z) : list byte :=
  <[offset := byte_of_Z v]>
    (<[S offset := byte_of_Z (v / 256)]>
       (<[S (S offset) := byte_of_Z (v / 65536)]>
          (<[S (S (S offset)) := byte_of_Z (v / 16777216)]> buf))).

Definition _get_feature_enable_report (feature_id : Z) : Result (list byte) :=
  let set_feature_report := replicate 17 x00 in
  let set_feature_report :=
    <[0%nat := byte_of_Z _BNO_CMD_SET_FEATURE_COMMAND]> set_feature_report in
  if (0 <=? feature_id) && (feature_id <? 256) then
    let set_feature_report :=
      <[1%nat := byte_of_Z feature_id]> set_feature_report in
    Ok (pack_into_I set_feature_report 5 _DEFAULT_REPORT_INTERVAL)
  else Raise ValueError.

(** *** The transport

    [_data_ready], [_read_packet], [_send_packet] and [reset] raise
    "Not implemented" in this class; the subclass that drives the bus is not
    part of the source. *)

(** Modelled from the spec: the transport's ready signal ([_data_ready]),
    "is_data_ready() -> bool -- non-blocking poll".  A poll takes one
    millisecond of the clock; a poll that finds nothing uses up one [Idle]
    event, and a transport with no events left is never ready. *)
Definition _data_ready : M bool :=
  fun self =>
    let w := world self in
    let tick rest := set_world (mkWorld (now w + 1) rest (outbound w) (resets w)) self in
    match inbound w with
    | Frame _ :: _ => (Ok true, tick (inbound w))
    | Idle :: rest => (Ok false, tick rest)
    | [] => (Ok false, tick [])
    end.

(** [readinto]: [src] written over [buf] from [offset] on. *)
Definition readinto (buf : list byte) (offset : nat) (src : list byte) : list byte :=
  take offset buf ++ src ++ drop (offset + length src) buf.

(** Modelled from the spec: the transport's [_read_packet].  "On ready, reads
    the 4-byte header, then reads the remaining data_length bytes, and
    returns the assembled Packet"; the one receive buffer "is overwritten on
    every read"; "error frames must not be dispatched further; the read loop
    surfaces a protocol error instead"; the sequence tracker is "updated on
    every received packet".  A frame that ends before the bytes its header
    announces, or that does not fit the buffer, is a transport failure. *)
Definition _read_packet : M Packet.t :=
  fun self =>
    let w := world self in
    match inbound w with
    | Frame raw :: rest =>
        let self := set_world (mkWorld (now w) rest (outbound w) (resets w)) self in
        let head := take 4 raw in
        if (length head <? 4)%nat then (Raise TransportError, self)
        else
          let self := set_data_buffer (readinto (_data_buffer self) 0 head) self in
          match Packet.header_from_buffer (_data_buffer self) with
          | Ok header =>
              if Packet.is_error header then (Raise ProtocolViolation, self)
              else
                let n := Z.to_nat (data_length header) in
                let body := take n (drop 4 raw) in
                if (length body <? n)%nat
                   || (length (_data_buffer self) <? 4 + n)%nat
                then (Raise TransportError, self)
                else
                  let self :=
                    set_data_buffer (readinto (_data_buffer self) 4 body) self in
                  match Packet.init (_data_buffer self) with
                  | Ok new_packet =>
                      match _update_sequence_number new_packet self with
                      | (Ok _, self) => (Ok new_packet, self)
                      | (Raise e, self) => (Raise e, self)
                      | (OutOfFuel, self) => (OutOfFuel, self)
                      end
                  | Raise e => (Raise e, self)
                  | OutOfFuel => (OutOfFuel, self)
                  end
          | Raise e => (Raise e, self)
          | OutOfFuel => (OutOfFuel, self)
          end
    | _ => (Raise TransportError, self)
    end.

(** Modelled from the spec: the transport's [_send_packet],
    "write_frame(channel, payload) -- builds and sends a framed packet
    (outbound header numbering reuses the channel's sequence tracker
    incrementing by one per send)". *)
Definition _send_packet (channel : Z) (data : list byte) : M unit :=
  fun self =>
    let tracker := _sequence_number self in
    match py_index tracker channel with
    | Some k =>
        let seq := default 0 (tracker !! k) in
        let write_length := Z.of_nat (length data) + 4 in
        let frame :=
          [byte_of_Z write_length; byte_of_Z (write_length / 256);
           byte_of_Z channel; byte_of_Z seq] ++ data in
        let w := world self in
        (Ok tt,
         set_world (mkWorld (now w) (inbound w) (frame :: outbound w) (resets w))
           (set_sequence_number (<[k := (seq + 1) mod 256]> tracker) self))
    | None => (Raise IndexError, self)
    end.

(** Modelled from the spec: the transport's [reset], "hard_reset() -- toggles
    a reset line and returns once the device begins advertising". *)
Definition reset : M unit :=
  modify (fun self =>
    let w := world self in
    set_world (mkWorld (now w) (inbound w) (outbound w) (S (resets w))) self).

(** *** The blocking read loop *)

(** The [while _elapsed(start_time) < timeout] loop of [_wait_for_packet]. *)
Fixpoint wait_for_packet_loop (fuel : nat) (timeout start_time : Z) : M Packet.t :=
  match fuel with
  | O => out_of_fuel
  | S fuel' =>
      (elapsed <-! _elapsed start_time;
       if elapsed <? timeout then
         ready <-! _data_ready;
         if negb ready then wait_for_packet_loop fuel' timeout start_time
         else
           new_packet <-! _read_packet;
           ret new_packet
       else raise Timeout_packet)%driver
  end.

(** Every pass that stays in the loop has polled the ready signal, so the
    loop makes at most [timeout] passes before the test fails. *)
Definition _wait_for_packet (timeout : Z) : M Packet.t :=
  (start_time <-! monotonic;
   wait_for_packet_loop (S (Z.to_nat timeout)) timeout start_time)%driver.

Section Dispatch.

(** [self.initialize()], which [_handle_packet] calls on a reset packet and
    which itself runs the read loop: the recursion is tied by [initialize]
    below. *)
Variable self_initialize : M unit.

Definition _handle_packet (packet : Packet.t) : M unit :=
  (store <-! (if Packet.channel_number packet =? _BNO_CHANNEL_INPUT_SENSOR_REPORTS
              then
                report_id <-! lift (Packet.report_id packet);
                ret (int_in report_id [PyDict _ENABLED_SENSOR_REPORTS])
              else ret false);
   (if store : bool then _store_sensor_report packet else ret tt);!
   (if Packet.channel_number packet =? _BNO_CHANNEL_SHTP_COMMAND then
      if data_length (Packet.header packet) =? 272 then
        modify (set_wait_for_initialize true);!
        modify (set_init_complete false);!
        modify (set_id_read false)
      else ret tt
    else ret tt);!
   (if Packet.channel_number packet =? BNO_CHANNEL_EXE then
      b0 <-! lift (getitem (Packet.data packet) 0);
      if b0 =? 1 then
        modify (set_init_complete false);!
        sleep 1;!
        self_initialize
      else ret tt
    else ret tt);!
   (if Packet.channel_number packet =? _BNO_CHANNEL_CONTROL then
      report_id <-! lift (Packet.report_id packet);
      if report_id =? _BNO_CMD_COMMAND_RESPONSE then
        b2 <-! lift (getitem (Packet.data packet) 2);
        if b2 =? 0x84 then
          waiting <-! gets _wait_for_initialize;
          if waiting : bool then
            modify (set_wait_for_initialize false);!
            modify (set_init_complete true)
          else raise ProtocolViolation
        else ret tt
      else ret tt
    else ret tt))%driver.

(** Whether [new_packet] is the one the caller waits for: [Ok true] when the
    loop returns it, [Ok false] when the loop goes on to [_handle_packet]. *)
Definition wanted (channel_number : Z) (report_id : option Z)
    (new_packet : Packet.t) : Result bool :=
  if Packet.channel_number new_packet =? channel_number then
    if truthy report_id then
      (packet_report_id <-? Packet.report_id new_packet;
       Ok (packet_report_id =? default 0 report_id))%result
    else Ok true
  else Ok false.

(** The [while _elapsed(start_time) < timeout] loop of
    [_wait_for_packet_type]. *)
Fixpoint wait_for_packet_type_loop (fuel : nat) (channel_number : Z)
    (report_id : option Z) (timeout start_time : Z) : M Packet.t :=
  match fuel with
  | O => out_of_fuel
  | S fuel' =>
      (elapsed <-! _elapsed start_time;
       if elapsed <? timeout then
         new_packet <-! _wait_for_packet _PACKET_READ_TIMEOUT;
         found <-! lift (wanted channel_number report_id new_packet);
         if found : bool then ret new_packet
         else
           _handle_packet new_packet;!
           wait_for_packet_type_loop fuel' channel_number report_id timeout
             start_time
       else raise (Timeout_channel channel_number))%driver
  end.

(** Every pass polls the ready signal at least once, so the clock moves by a
    millisecond or more each pass. *)
Definition _wait_for_packet_type (channel_number : Z) (report_id : option Z)
    (timeout : Z) : M Packet.t :=
  (start_time <-! monotonic;
   wait_for_packet_type_loop (S (Z.to_nat timeout)) channel_number report_id
     timeout start_time)%driver.

(** The [while True] loop of [_check_id]; [fuel] bounds its passes. *)
Fixpoint check_id_loop (fuel : nat) : M bool :=
  match fuel with
  | O => out_of_fuel
  | S fuel' =>
      (_wait_for_packet_type _BNO_CHANNEL_CONTROL
         (Some _SHTP_REPORT_PRODUCT_ID_RESPONSE) default_timeout;!
       sensor_id <-! _parse_sensor_id;
       if truthy sensor_id then
         modify (set_id_read true);!
         ret true
       else check_id_loop fuel')%driver
  end.

Definition _check_id (fuel : nat) : M bool :=
  (id_read <-! gets _id_read;
   if id_read : bool then ret true
   else
     let data := [byte_of_Z _SHTP_REPORT_PRODUCT_ID_REQUEST; byte_of_Z 0] in
     _send_packet _BNO_CHANNEL_CONTROL data;!
     check_id_loop fuel)%driver.

(** The [while True] loop of [_enable_feature]; [fuel] bounds its passes. *)
Fixpoint enable_feature_loop (fuel : nat) (feature_id : Z) : M bool :=
  match fuel with
  | O => out_of_fuel
  | S fuel' =>
      (packet <-! _wait_for_packet_type _BNO_CHANNEL_CONTROL
                    (Some _BNO_CMD_GET_FEATURE_RESPONSE) default_timeout;
       b1 <-! lift (getitem (Packet.data packet) 1);
       if b1 =? feature_id then
         (if feature_id =? _BNO_REPORT_ROTATION_VECTOR then
            modify (fun self =>
              set_readings
                (<[feature_id := [0%float; 0%float; 0%float; 0%float]]>
                   (_readings self)) self)
          else
            modify (fun self =>
              set_readings
                (<[feature_id := [0%float; 0%float; 0%float]]>
                   (_readings self)) self));!
         ret true
       else enable_feature_loop fuel' feature_id)%driver
  end.

Definition _enable_feature (fuel : nat) (feature_id : Z) : M bool :=
  (set_feature_report <-! lift (_get_feature_enable_report feature_id);
   _send_packet _BNO_CHANNEL_CONTROL set_feature_report;!
   enable_feature_loop fuel feature_id)%driver.

(** The body of [initialize]. *)
Definition initialize_body (fuel : nat) : M unit :=
  (reset;!
   identified <-! _check_id fuel;
   if negb identified then raise IdentificationFailed
   else
     _enable_feature fuel _BNO_REPORT_GYROSCOPE;!
     _enable_feature fuel _BNO_REPORT_ACCELEROMETER;!
     _enable_feature fuel _BNO_REPORT_LINEAR_ACCELERATION;!
     _enable_feature fuel _BNO_REPORT_ROTATION_VECTOR;!
     _enable_feature fuel _BNO_REPORT_MAGNETIC_FIELD;!
     ret tt)%driver.

End Dispatch.

(** [initialize]: [fuel] bounds the nesting of re-initialisations (a reset
    packet met while initialising starts another one) and the passes of each
    [while True] loop. *)
Fixpoint initialize (fuel : nat) : M unit :=
  match fuel with
  | O => out_of_fuel
  | S fuel' => initialize_body (initialize fuel') fuel'
  end.

(** [BNO080.__init__] on a given environment. *)
Definition fresh (w : World) : t :=
  mk (replicate (Z.to_nat DATA_BUFFER_SIZE) x00) [0; 0; 0; 0; 0; 0]
    true false false ∅ w.

Definition init (fuel : nat) (w : World) : Result unit * t :=
  initialize fuel (fresh w).

End BNO080.

(** * Reference descriptions and sample inputs *)

(** The signed little-endian 16-bit integer at [offset] of [payload]. *)
Definition sint16_le_at (payload : list byte) (offset : nat) : Z :=
  let lo := byte_val (nth offset payload x00) in
  let hi := byte_val (nth (S offset) payload x00) in
  let u := lo + 256 * hi in
  if u <? 2 ^ 15 then u else u - 2 ^ 16.

(** The value the decoder is to produce for the field of index [i]. *)
Definition scaled_field (payload : list byte) (scalar : float) (i : nat) : float :=
  PrimFloat.mul (float_of_int (sint16_le_at payload (9 + 2 * i))) scalar.

(** The report id a payload carries: byte 5 when byte 0 is the base-timestamp
    marker, byte 0 otherwise. *)
Definition resolved_id (payload : list byte) : Z :=
  let first := byte_val (nth 0 payload x00) in
  if first =? 0xFB then byte_val (nth 5 payload x00) else first.

(** An input report of 16 payload bytes on channel 3 that starts with the
    report id [rid] and whose first field, at payload offset 9, holds [raw]. *)
Definition plain_report (rid raw : Z) : Packet.t :=
  Packet.mk (mkPacketHeader 3 0 16 20)
    (map byte_of_Z [rid; 0; 0; 0; 0; 0; 0; 0; 0; raw; raw / 256; 0; 0; 0; 0; 0]).

(** The same report behind a base-timestamp header: byte 0 is [0xFB] and the
    report id is byte 5. *)
Definition timestamped_report (rid raw : Z) : Packet.t :=
  Packet.mk (mkPacketHeader 3 0 19 23)
    (map byte_of_Z
       [0xFB; 0x17; 0; 0; 0; rid; 0; 0; 0; raw; raw / 256; 0xF4; 0xFD; 0xAB;
        0x07; 0x72; 0x3F; 0x44; 0x32]).

(** The unsolicited-initialize response shown in the comments of
    [_handle_packet]: channel 2, report 0xF1, command 0x84. *)
Definition unsolicited_init_response : Packet.t :=
  Packet.mk (mkPacketHeader 2 1 16 20)
    (map byte_of_Z [0xF1; 0; 0x84; 0; 0; 0; 1; 0; 0; 0; 0; 0; 0; 0; 0; 0]).

(** An advertisement: a packet on channel 0 with 272 payload bytes. *)
Definition advertisement : Packet.t :=
  Packet.mk (mkPacketHeader 0 1 272 276) (replicate 272 x00).

(** An environment in which nothing arrives. *)
Definition silent (start : Z) : World := mkWorld start [] [] 0.

(** A reset packet: the one kind of packet on which [_handle_packet] runs
    [initialize], channel 1 with payload byte 0 equal to 1. *)
Definition is_reset_packet (p : Packet.t) : bool :=
  (Packet.channel_number p =? BNO_CHANNEL_EXE)
  && match getitem (Packet.data p) 0 with
     | Ok b0 => b0 =? 1
     | _ => false
     end.

(** A frame as the transport delivers it: the 4-byte header, then the
    payload. *)
Definition frame (channel seq : Z) (payload : list Z) : BusEvent :=
  Frame (map byte_of_Z
           ([Z.of_nat (length payload) + 4; (Z.of_nat (length payload) + 4) / 256;
             channel; seq] ++ payload)).

(** Two input reports on channel 3 that arrive out of order: sequence
    number 9, then sequence number 3. *)
Definition out_of_order : World :=
  mkWorld 0
    [frame 3 9 [0xFB; 0; 0; 0; 0; 1; 0; 0; 0; 0xA0; 0x0F; 0; 0; 0; 0];
     Idle;
     frame 3 3 [0xFB; 0; 0; 0; 0; 1; 0; 0; 0; 0x60; 0xF0; 0; 0; 0; 0]]
    [] 0.

(** The packet of an outcome, the empty packet when there is none. *)
Definition packet_of (r : Result Packet.t * BNO080.t) : Packet.t :=
  match fst r with
  | Ok p => p
  | _ => Packet.mk (mkPacketHeader 0 0 0 0) []
  end.

(** What [_handle_packet] leaves alone unless it re-initialises: everything
    but the three lifecycle flags. *)
Definition device (self : BNO080.t) :=
  (BNO080._data_buffer self, BNO080._sequence_number self,
   BNO080._readings self, BNO080.world self).

(** A get-feature response for the accelerometer, on channel 2. *)
Definition feature_response : BusEvent :=
  frame 2 1 [0xFC; 0x01; 0; 0; 0; 0x50; 0xC3; 0; 0; 0; 0; 0; 0; 0; 0; 0; 0].

(** An environment in which the transport stays idle for six seconds and then
    delivers a get-feature response. *)
Definition late_arrival : World :=
  mkWorld 0 (replicate (Z.to_nat 6000) Idle ++ [feature_response]) [] 0.

(** An environment that delivers an input report, then a get-feature
    response. *)
Definition report_then_response : World :=
  mkWorld 0
    [frame 3 7 [0xFB; 0; 0; 0; 0; 1; 0; 0; 0; 0xA0; 0x0F; 0; 0; 0; 0];
     feature_response]
    [] 0.

(** An environment that delivers a get-feature response (report id 0xFC) on
    channel 2 at the first poll. *)
Definition response_first : World := mkWorld 0 [feature_response] [] 0.

(** A product-id response, on channel 2, with the part number [part]. *)
Definition product_id_response (part : Z) : BusEvent :=
  frame 2 3
    [0xF8; 3; 3; 2; part; part / 256; part / 65536; part / 16777216;
     0x72; 1; 0; 0; 7; 0; 0; 0].

(** An environment that answers the id request with a part number of 0, and
    then with the part number of the source's comment, 0x0098A498. *)
Definition zero_then_part : World :=
  mkWorld 0 [Idle; product_id_response 0; Idle; product_id_response 0x0098A498]
    [] 0.

(** A method never sets the clock of the environment back. *)
Definition monotone {A : Type} (c : BNO080.M A) : Prop :=
  forall self : BNO080.t,
    now (BNO080.world self) <= now (BNO080.world (snd (c self))).

(** An environment that delivers a get-feature response and then a
    product-id response cut to its first payload byte, 0xF8. *)
Definition stale_then_short : World :=
  mkWorld 0 [feature_response; frame 2 4 [0xF8]] [] 0.

(** An environment that answers with the get-feature response of the
    gyroscope and then with the one of the accelerometer. *)
Definition gyroscope_then_accelerometer : World :=
  mkWorld 0
    [frame 2 1 [0xFC; 0x02; 0; 0; 0; 0x50; 0xC3; 0; 0; 0; 0; 0; 0; 0; 0; 0; 0];
     feature_response]
    [] 0.

(** The tuple of zeros that [_enable_feature] stores for a feature id. *)
Definition zero_reading (feature_id : Z) : list float :=
  if feature_id =? _BNO_REPORT_ROTATION_VECTOR
  then [0%float; 0%float; 0%float; 0%float]
  else [0%float; 0%float; 0%float].

(** ** The accessors [acceleration] and [linear_acceleration]

    Each is a [while True] loop, bounded here by [fuel], over
    [_wait_for_packet_type(_BNO_CHANNEL_INPUT_SENSOR_REPORTS)]: a packet
    whose payload byte 5 is not the wanted report id is passed over, the
    first other one is decoded.  The second argument of the call
    [_parse_report_data(new_packet, _ACCEL_SCALAR)] lands in the decoder's
    [debug] parameter, where it only turns printing on; the scalar the
    decoder uses is the one of the decode table. *)

Section Accessors.

Import BNO080.

Variable self_initialize : M unit.

Fixpoint acceleration (fuel : nat) : M (list float) :=
  match fuel with
  | O => out_of_fuel
  | S fuel' =>
      (new_packet <-! _wait_for_packet_type self_initialize
                        _BNO_CHANNEL_INPUT_SENSOR_REPORTS None default_timeout;
       b5 <-! lift (getitem (Packet.data new_packet) 5);
       if negb (b5 =? _BNO_REPORT_ACCELEROMETER) then acceleration fuel'
       else lift (_parse_report_data new_packet))%driver
  end.

Fixpoint linear_acceleration (fuel : nat) : M (list float) :=
  match fuel with
  | O => out_of_fuel
  | S fuel' =>
      (new_packet <-! _wait_for_packet_type self_initialize
                        _BNO_CHANNEL_INPUT_SENSOR_REPORTS None default_timeout;
       b5 <-! lift (getitem (Packet.data new_packet) 5);
       if negb (b5 =? _BNO_REPORT_LINEAR_ACCELERATION)
       then linear_acceleration fuel'
       else lift (_parse_report_data new_packet))%driver
  end.

End Accessors.

(** An environment that delivers a timestamped gyroscope report and then a
    timestamped accelerometer report that carries 4000, both on channel 3. *)
Definition gyroscope_then_acceleration : World :=
  mkWorld 0
    [frame 3 1 [0xFB; 0x17; 0; 0; 0; 0x02; 0; 0; 0; 0x10; 0x00; 0; 0; 0; 0];
     frame 3 2
       [0xFB; 0x17; 0; 0; 0; 0x01; 0; 0; 0; 0xA0; 0x0F; 0xF4; 0xFD; 0xAB; 0x07]]
    [] 0.

(** An environment that delivers a timestamped linear-acceleration report. *)
Definition linear_acceleration_report : World :=
  mkWorld 0
    [frame 3 1
       [0xFB; 0x17; 0; 0; 0; 0x04; 0; 0; 0; 0xA0; 0x0F; 0xF4; 0xFD; 0xAB; 0x07]]
    [] 0.

(** * Properties *)

(** ** Bytes and fields *)

Lemma byte_val_range (b : byte) : 0 <= byte_val b < 256.
Proof.
  unfold byte_val. pose proof (Byte.to_N_bounded b) as Hb. lia.
Qed.

Lemma drop_two (buf : list byte) (offset : nat) :
  (offset + 2 <= length buf)%nat ->
  exists rest,
    drop offset buf = nth offset buf x00 :: nth (S offset) buf x00 :: rest.
Proof.
  intros Hlen.
  destruct (drop offset buf) as [|b0 [|b1 rest]] eqn:Hdrop;
    try (apply (f_equal length) in Hdrop; rewrite length_drop in Hdrop;
         simpl in Hdrop; lia).
  exists rest.
  assert (H0 : buf !! offset = Some b0).
  { replace offset with (offset + 0)%nat by lia.
    rewrite <- lookup_drop, Hdrop. reflexivity. }
  assert (H1 : buf !! S offset = Some b1).
  { replace (S offset) with (offset + 1)%nat by lia.
    rewrite <- lookup_drop, Hdrop. reflexivity. }
  rewrite !nth_lookup, H0, H1. reflexivity.
Qed.

Lemma unpack_from_h (payload : list byte) (offset : nat) :
  (offset + 2 <= length payload)%nat ->
  unpack_from fmt_h payload offset = Ok (sint16_le_at payload offset).
Proof.
  intros Hlen. destruct (drop_two payload offset Hlen) as [rest Hdrop].
  unfold unpack_from, sint16_le_at. rewrite Hdrop. simpl.
  replace (byte_val (nth offset payload x00)
           + 256 * (byte_val (nth (S offset) payload x00) + 256 * 0))
    with (byte_val (nth offset payload x00)
          + 256 * byte_val (nth (S offset) payload x00)) by lia.
  reflexivity.
Qed.

Lemma unpack_from_short (f : Format) (buf : list byte) (offset : nat) :
  (length buf < offset + fmt_size f)%nat ->
  unpack_from f buf offset = Raise StructError.
Proof.
  intros Hlen. unfold unpack_from.
  assert (Hlt : (length (take (fmt_size f) (drop offset buf)) <? fmt_size f)%nat = true).
  { apply Nat.ltb_lt. rewrite length_take, length_drop.
    assert (0 < fmt_size f)%nat by (destruct f; simpl; lia). lia. }
  rewrite Hlt. reflexivity.
Qed.

Lemma unpack_from_outcome (f : Format) (buf : list byte) (offset : nat) :
  (exists v, unpack_from f buf offset = Ok v)
  \/ unpack_from f buf offset = Raise StructError.
Proof.
  unfold unpack_from.
  destruct (length (take (fmt_size f) (drop offset buf)) <? fmt_size f)%nat;
    [right | left; eexists]; reflexivity.
Qed.

(** ** The report decoder *)

Lemma py_range_seq (n : nat) : py_range (Z.of_nat n) = map Z.of_nat (seq 0 n).
Proof. unfold py_range. rewrite Nat2Z.id. reflexivity. Qed.

Lemma scale_fields_spec (payload : list byte) (scalar : float) (n : nat) :
  forall (a : nat) (acc : list float),
    (9 + 2 * (a + n) <= length payload)%nat ->
    scale_fields payload scalar (map Z.of_nat (seq a n)) acc
    = Ok (acc ++ map (scaled_field payload scalar) (seq a n)).
Proof.
  induction n as [|n IH]; intros a acc Hlen; simpl.
  - rewrite app_nil_r. reflexivity.
  - replace (Z.to_nat (9 + Z.of_nat a * 2)) with (9 + 2 * a)%nat by lia.
    rewrite unpack_from_h by lia. simpl.
    rewrite IH by lia. rewrite <- app_assoc. reflexivity.
Qed.

(** The loop raises nothing but [struct.error]. *)
Lemma scale_fields_outcome (payload : list byte) (scalar : float) (idxs : list Z) :
  forall acc,
    (exists values, scale_fields payload scalar idxs acc = Ok values)
    \/ scale_fields payload scalar idxs acc = Raise StructError.
Proof.
  induction idxs as [|i idxs IH]; intros acc; simpl.
  - left. eexists. reflexivity.
  - destruct (unpack_from_outcome fmt_h payload (Z.to_nat (9 + i * 2)))
      as [[v Hv] | Hv]; rewrite Hv; simpl.
    + apply IH.
    + right. reflexivity.
Qed.

Lemma enabled_lookup (rid : Z) (scale : float) (count : Z) :
  _ENABLED_SENSOR_REPORTS !! rid = Some (scale, count)
  <-> rid = _BNO_REPORT_ACCELEROMETER /\ scale = _Q_POINT_8_SCALAR /\ count = 3.
Proof.
  unfold _ENABLED_SENSOR_REPORTS. split.
  - intros H. apply lookup_singleton_Some in H as [Hk Hv].
    inversion Hv. subst. auto.
  - intros (-> & -> & ->). apply lookup_singleton_eq.
Qed.

Lemma enabled_lookup_None (rid : Z) :
  _ENABLED_SENSOR_REPORTS !! rid = None <-> rid <> _BNO_REPORT_ACCELEROMETER.
Proof.
  unfold _ENABLED_SENSOR_REPORTS. rewrite lookup_singleton_None.
  split; intros H; congruence.
Qed.

Lemma getitem_nth (buf : list byte) (i : nat) :
  (i < length buf)%nat -> getitem buf i = Ok (byte_val (nth i buf x00)).
Proof.
  intros Hlen. unfold getitem. rewrite nth_lookup.
  destruct (buf !! i) as [b|] eqn:Hb; [reflexivity|].
  apply lookup_ge_None in Hb. lia.
Qed.

Lemma getitem_outcome (buf : list byte) (i : nat) :
  (exists v, getitem buf i = Ok v) \/ getitem buf i = Raise IndexError.
Proof.
  unfold getitem. destruct (buf !! i); [left; eexists | right]; reflexivity.
Qed.

Lemma resolve_report_id_spec (packet : Packet.t) :
  (6 <= length (Packet.data packet))%nat ->
  resolve_report_id packet = Ok (resolved_id (Packet.data packet)).
Proof.
  intros Hlen. unfold resolve_report_id, resolved_id, Packet.report_id.
  rewrite getitem_nth by lia. simpl.
  unfold _BNO_CMD_BASE_TIMESTAMP.
  destruct (byte_val (nth 0 (Packet.data packet) x00) =? 251); [|reflexivity].
  apply getitem_nth. lia.
Qed.

(** The resolution of the report id raises nothing but [IndexError]. *)
Lemma resolve_report_id_outcome (packet : Packet.t) :
  (exists rid, resolve_report_id packet = Ok rid)
  \/ resolve_report_id packet = Raise IndexError.
Proof.
  unfold resolve_report_id, Packet.report_id.
  destruct (getitem_outcome (Packet.data packet) 0) as [[v Hv] | Hv];
    rewrite Hv; simpl; [|right; reflexivity].
  destruct (v =? _BNO_CMD_BASE_TIMESTAMP).
  - destruct (getitem_outcome (Packet.data packet) 5) as [[v5 Hv5] | Hv5];
      rewrite Hv5; [left; eexists | right]; reflexivity.
  - left. eexists. reflexivity.
Qed.



Example parse_timestamped_4000 :
  _parse_report_data (timestamped_report _BNO_REPORT_ACCELEROMETER 4000)
  = Ok [15.625%float; (-2.046875)%float; 7.66796875%float].
Proof. vm_compute. reflexivity. Qed.

Example parse_plain_minus_4000 :
  _parse_report_data (plain_report _BNO_REPORT_ACCELEROMETER (-4000))
  = Ok [(-15.625)%float; 0%float; 0%float].
Proof. vm_compute. reflexivity. Qed.

(** ** The decode table *)

Lemma parse_report_data_KeyError (packet : Packet.t) (k : Z) :
  _parse_report_data packet = Raise (KeyError k)
  <-> resolve_report_id packet = Ok k /\ _ENABLED_SENSOR_REPORTS !! k = None.
Proof.
  unfold _parse_report_data.
  destruct (resolve_report_id_outcome packet) as [[rid Hrid] | Hrid];
    rewrite Hrid; simpl.
  - unfold dict_getitem.
    destruct (_ENABLED_SENSOR_REPORTS !! rid) as [[scalar count]|] eqn:Hget; simpl.
    + split.
      * intros Hrun.
        destruct (scale_fields_outcome (Packet.data packet) scalar (py_range count) [])
          as [[values Hv] | Hv]; rewrite Hv in Hrun; discriminate.
      * intros [Heq Hnone]. inversion Heq; subst. congruence.
    + split.
      * intros Hrun. inversion Hrun; subst. auto.
      * intros [Heq _]. inversion Heq; subst. reflexivity.
  - split; [discriminate | intros [Heq _]; discriminate].
Qed.

(** What the decode table holds in the source: one entry, accelerometer
    (0x01) -> (2^-8, 3); and decoding fails with a [KeyError] exactly when
    the report id the packet resolves to is absent from the table. *)
Theorem decode_table_accelerometer_only :
  (forall (rid : Z) (scale : float) (count : Z),
      _ENABLED_SENSOR_REPORTS !! rid = Some (scale, count)
      <-> rid = _BNO_REPORT_ACCELEROMETER /\ scale = 0x1p-8%float /\ count = 3)
  /\ (forall rid : Z,
        _ENABLED_SENSOR_REPORTS !! rid = None <-> rid <> _BNO_REPORT_ACCELEROMETER)
  /\ (forall packet : Packet.t,
        (exists k, _parse_report_data packet = Raise (KeyError k))
        <-> (exists rid, resolve_report_id packet = Ok rid
                         /\ _ENABLED_SENSOR_REPORTS !! rid = None)).
Proof.
  split; [exact enabled_lookup|]. split; [exact enabled_lookup_None|].
  intros packet. split.
  - intros [k Hk]. exists k. apply parse_report_data_KeyError. exact Hk.
  - intros [rid Hrid]. exists rid. apply parse_report_data_KeyError. exact Hrid.
Qed.

(** The table has no gyroscope entry: a gyroscope report, plain or
    timestamped, is not decoded with (2^-9, 3) but raises [KeyError]. *)
Lemma gyroscope_absent_from_decode_table :
  _ENABLED_SENSOR_REPORTS !! _BNO_REPORT_GYROSCOPE <> Some (_Q_POINT_9_SCALAR, 3)
  /\ _ENABLED_SENSOR_REPORTS !! _BNO_REPORT_GYROSCOPE = None
  /\ _parse_report_data (plain_report _BNO_REPORT_GYROSCOPE 4000)
     = Raise (KeyError _BNO_REPORT_GYROSCOPE)
  /\ _parse_report_data (timestamped_report _BNO_REPORT_GYROSCOPE 4000)
     = Raise (KeyError _BNO_REPORT_GYROSCOPE).
Proof.
  split; [|split; [|split]].
  - intros H. apply enabled_lookup in H as [H _]. discriminate H.
  - reflexivity.
  - vm_compute. reflexivity.
  - vm_compute. reflexivity.
Qed.

(** C2 fails on the code: of the five report ids that [initialize] enables,
    the decode table holds the accelerometer only.  The gyroscope is not
    mapped to (2^-9, 3), the magnetic field not to (2^-4, 3), the linear
    acceleration not to (2^-8, 3), the rotation vector not to (2^-14, 4):
    a report of any of the four, such as the timestamped ones the accessors
    pass to [_parse_report_data], raises [KeyError] instead of being
    decoded. *)
Theorem decode_table_lacks_enabled_reports :
  _ENABLED_SENSOR_REPORTS !! _BNO_REPORT_ACCELEROMETER = Some (_Q_POINT_8_SCALAR, 3)
  /\ _ENABLED_SENSOR_REPORTS !! _BNO_REPORT_GYROSCOPE = None
  /\ _ENABLED_SENSOR_REPORTS !! _BNO_REPORT_MAGNETIC_FIELD = None
  /\ _ENABLED_SENSOR_REPORTS !! _BNO_REPORT_LINEAR_ACCELERATION = None
  /\ _ENABLED_SENSOR_REPORTS !! _BNO_REPORT_ROTATION_VECTOR = None
  /\ _parse_report_data (timestamped_report _BNO_REPORT_GYROSCOPE 4000)
     = Raise (KeyError _BNO_REPORT_GYROSCOPE)
  /\ _parse_report_data (timestamped_report _BNO_REPORT_MAGNETIC_FIELD 4000)
     = Raise (KeyError _BNO_REPORT_MAGNETIC_FIELD)
  /\ _parse_report_data (timestamped_report _BNO_REPORT_LINEAR_ACCELERATION 4000)
     = Raise (KeyError _BNO_REPORT_LINEAR_ACCELERATION)
  /\ _parse_report_data (timestamped_report _BNO_REPORT_ROTATION_VECTOR 4000)
     = Raise (KeyError _BNO_REPORT_ROTATION_VECTOR)
  /\ _parse_report_data (timestamped_report _BNO_REPORT_ACCELEROMETER 4000)
     = Ok [15.625%float; (-2.046875)%float; 7.66796875%float].
Proof.
  split; [reflexivity|]. split; [reflexivity|]. split; [reflexivity|].
  split; [reflexivity|]. split; [reflexivity|].
  split; [vm_compute; reflexivity|]. split; [vm_compute; reflexivity|].
  split; [vm_compute; reflexivity|]. split; vm_compute; reflexivity.
Qed.

(** ** The frame codec *)

(** C6: [Packet.is_error] is true exactly when the channel number is greater
    than 5, or the packet byte count is 0xFFFF and the sequence number is
    0xFF; channel 5 alone is not an error, channel 6 is. *)
Theorem is_error_iff (h : PacketHeader) :
  (Packet.is_error h = true
   <-> (5 < channel_number h
        \/ (packet_byte_count h = 0xFFFF /\ sequence_number h = 0xFF)))
  /\ (Packet.is_error h = false
      <-> (channel_number h <= 5
           /\ ~ (packet_byte_count h = 0xFFFF /\ sequence_number h = 0xFF)))
  /\ Packet.is_error
       (mkPacketHeader 5 (sequence_number h) (data_length h) 20) = false
  /\ Packet.is_error
       (mkPacketHeader 6 (sequence_number h) (data_length h) 20) = true.
Proof.
  unfold Packet.is_error. simpl.
  destruct (Z.ltb_spec 5 (channel_number h));
    destruct (Z.eqb_spec (packet_byte_count h) 65535);
    destruct (Z.eqb_spec (sequence_number h) 255); simpl;
    repeat split; intros; try discriminate; try tauto; try lia.
Qed.

(** ** The dispatch routine *)

Import BNO080.

Ltac run_driver :=
  unfold bind, ret, raise, lift, gets, modify; simpl.

(** C4: on a Control-channel packet whose report id is 0xF1 and whose payload
    byte 2 is 0x84, [_handle_packet] returns with [_wait_for_initialize]
    false and [_init_complete] true when the flag was set, everything else
    of the instance being as before; when the flag was not set it raises the
    "unsolicited init before advertisement" error and leaves the instance as
    it was. *)
Theorem handle_packet_unsolicited_init (self_initialize : M unit)
    (packet : Packet.t) (self : BNO080.t) :
  Packet.channel_number packet = _BNO_CHANNEL_CONTROL ->
  Packet.report_id packet = Ok _BNO_CMD_COMMAND_RESPONSE ->
  getitem (Packet.data packet) 2 = Ok 0x84 ->
  (_wait_for_initialize self = true ->
   exists self',
     _handle_packet self_initialize packet self = (Ok tt, self')
     /\ _wait_for_initialize self' = false
     /\ _init_complete self' = true
     /\ _id_read self' = _id_read self
     /\ _readings self' = _readings self
     /\ _sequence_number self' = _sequence_number self
     /\ _data_buffer self' = _data_buffer self
     /\ world self' = world self)
  /\ (_wait_for_initialize self = false ->
      _handle_packet self_initialize packet self
      = (Raise ProtocolViolation, self)).
Proof.
  intros Hchannel Hreport Hbyte.
  unfold _handle_packet. rewrite Hchannel, Hreport, Hbyte.
  run_driver. split; intros Hflag; rewrite Hflag.
  - eexists. split; [reflexivity|]. simpl. repeat split; reflexivity.
  - reflexivity.
Qed.

(** The response of the source's comment, met by a driver that awaits it
    (and has [_init_complete] false) and by one that does not. *)
Lemma handle_packet_unsolicited_init_witness :
  let armed :=
    BNO080.mk (replicate 512 x00) [0; 0; 0; 0; 0; 0] true false false ∅
      (silent 0) in
  let idle :=
    BNO080.mk (replicate 512 x00) [0; 0; 0; 0; 0; 0] false true true ∅
      (silent 0) in
  (exists self',
     _handle_packet (initialize 0) unsolicited_init_response armed
     = (Ok tt, self')
     /\ _wait_for_initialize self' = false
     /\ _init_complete self' = true
     /\ _id_read self' = _id_read armed
     /\ _readings self' = _readings armed
     /\ _sequence_number self' = _sequence_number armed
     /\ _data_buffer self' = _data_buffer armed
     /\ world self' = world armed)
  /\ _handle_packet (initialize 0) unsolicited_init_response idle
     = (Raise ProtocolViolation, idle).
Proof.
  cbv zeta. split.
  - apply (handle_packet_unsolicited_init (initialize 0)
             unsolicited_init_response
             (BNO080.mk (replicate 512 x00) [0; 0; 0; 0; 0; 0] true false false
                ∅ (silent 0)));
      reflexivity.
  - apply (handle_packet_unsolicited_init (initialize 0)
             unsolicited_init_response
             (BNO080.mk (replicate 512 x00) [0; 0; 0; 0; 0; 0] false true true
                ∅ (silent 0)));
      reflexivity.
Defined.

(** C8: on a channel-0 packet whose [data_length] is 272, [_handle_packet]
    sets [_wait_for_initialize], clears [_init_complete] and [_id_read],
    whatever they were, and leaves [_readings], the sequence tracker, the
    receive buffer and the environment as they were. *)
Theorem handle_packet_advertisement (self_initialize : M unit)
    (packet : Packet.t) (self : BNO080.t) :
  Packet.channel_number packet = _BNO_CHANNEL_SHTP_COMMAND ->
  data_length (Packet.header packet) = 272 ->
  exists self',
    _handle_packet self_initialize packet self = (Ok tt, self')
    /\ _wait_for_initialize self' = true
    /\ _init_complete self' = false
    /\ _id_read self' = false
    /\ _readings self' = _readings self
    /\ _sequence_number self' = _sequence_number self
    /\ _data_buffer self' = _data_buffer self
    /\ world self' = world self.
Proof.
  intros Hchannel Hlength.
  exists (set_id_read false
            (set_init_complete false (set_wait_for_initialize true self))).
  unfold _handle_packet. rewrite Hchannel, Hlength. run_driver.
  repeat split; reflexivity.
Qed.

(** An advertisement met by a driver that had finished its start-up. *)
Lemma handle_packet_advertisement_witness :
  let ready :=
    set_id_read true
      (set_init_complete true (set_wait_for_initialize false (fresh (silent 0)))) in
  exists self',
    _handle_packet (initialize 0) advertisement ready = (Ok tt, self')
    /\ _wait_for_initialize self' = true
    /\ _init_complete self' = false
    /\ _id_read self' = false
    /\ _readings self' = _readings ready
    /\ _sequence_number self' = _sequence_number ready
    /\ _data_buffer self' = _data_buffer ready
    /\ world self' = world ready.
Proof.
  apply (handle_packet_advertisement (initialize 0) advertisement); reflexivity.
Defined.

(** [x in [_ENABLED_SENSOR_REPORTS]] is false for every int [x]. *)
Lemma int_in_enabled_list (x : Z) :
  int_in x [PyDict _ENABLED_SENSOR_REPORTS] = false.
Proof. reflexivity. Qed.

(** A packet on channel 3 never reaches [_store_sensor_report]: the
    instance comes back as it was. *)
Lemma handle_packet_sensor_channel (self_initialize : M unit)
    (packet : Packet.t) (self : BNO080.t) :
  Packet.channel_number packet = _BNO_CHANNEL_INPUT_SENSOR_REPORTS ->
  _handle_packet self_initialize packet self
  = (match Packet.report_id packet with
     | Ok _ => Ok tt
     | Raise e => Raise e
     | OutOfFuel => OutOfFuel
     end, self).
Proof.
  intros Hchannel. unfold _handle_packet. rewrite Hchannel. run_driver.
  destruct (Packet.report_id packet); reflexivity.
Qed.

(** C1 fails on the code: for an accelerometer report on channel 3, which
    the decoder turns into (15.625, 0.0, 0.0), [_handle_packet] returns with
    the instance unchanged, so [_readings] has no entry for report 0x01; and
    [_store_sensor_report], were it reached, raises before it stores. *)
Theorem handle_packet_does_not_cache :
  let packet := plain_report _BNO_REPORT_ACCELEROMETER 4000 in
  let self := fresh (silent 0) in
  Packet.channel_number packet = _BNO_CHANNEL_INPUT_SENSOR_REPORTS
  /\ Packet.report_id packet = Ok _BNO_REPORT_ACCELEROMETER
  /\ is_Some (_ENABLED_SENSOR_REPORTS !! _BNO_REPORT_ACCELEROMETER)
  /\ _parse_report_data packet = Ok [15.625%float; 0%float; 0%float]
  /\ _handle_packet (initialize 0) packet self = (Ok tt, self)
  /\ _readings self !! _BNO_REPORT_ACCELEROMETER = None
  /\ _store_sensor_report packet self = (Raise AttributeError, self).
Proof.
  cbv zeta. split; [reflexivity|]. split; [reflexivity|].
  split; [eexists; reflexivity|]. split; [vm_compute; reflexivity|].
  split; [reflexivity|]. split; reflexivity.
Qed.

(** ** The transport and the read loop *)

Arguments _read_packet : simpl never.
Arguments _wait_for_packet : simpl never.

(** The header that [header_from_buffer] reads from four bytes. *)
Lemma header_from_buffer_cons (b0 b1 b2 b3 : byte) (rest : list byte) :
  Packet.header_from_buffer (b0 :: b1 :: b2 :: b3 :: rest)
  = Ok (let packet_byte_count :=
          Z.land (byte_val b0 + 256 * byte_val b1) (Z.lnot 0x8000) in
        mkPacketHeader (byte_val b2) (byte_val b3)
          (Z.max 0 (packet_byte_count - 4)) packet_byte_count).
Proof.
  unfold Packet.header_from_buffer, unpack_from. simpl.
  rewrite !Z.mul_0_r, !Z.add_0_r. reflexivity.
Qed.

Lemma set_world_twice (w1 w2 : World) (self : BNO080.t) :
  set_world w2 (set_world w1 self) = set_world w2 self.
Proof. reflexivity. Qed.

(** One poll of the ready signal: a millisecond passes, and nothing but the
    environment changes. *)
Lemma data_ready_spec (self : BNO080.t) :
  exists (ready : bool) (w' : World),
    _data_ready self = (Ok ready, set_world w' self)
    /\ now w' = now (world self) + 1
    /\ outbound w' = outbound (world self)
    /\ resets w' = resets (world self)
    /\ (ready = true -> inbound w' = inbound (world self)).
Proof.
  unfold _data_ready.
  destruct (inbound (world self)) as [|[|raw] rest] eqn:Hin;
    eexists; eexists; (split; [reflexivity|]); simpl;
    repeat split; intros; try discriminate; reflexivity.
Qed.

Lemma wait_for_packet_loop_inv (fuel : nat) (timeout start : Z) :
  forall (self : BNO080.t) (p : Packet.t) (self' : BNO080.t),
    wait_for_packet_loop fuel timeout start self = (Ok p, self') ->
    exists w0,
      _read_packet (set_world w0 self) = (Ok p, self')
      /\ now (world self) < now w0
      /\ outbound w0 = outbound (world self)
      /\ resets w0 = resets (world self).
Proof.
  induction fuel as [|fuel IH]; intros self p self' Hrun; simpl in Hrun.
  - discriminate Hrun.
  - unfold bind, _elapsed, monotonic, gets, ret in Hrun. simpl in Hrun.
    destruct (now (world self) - start <? timeout); [|discriminate Hrun].
    destruct (data_ready_spec self) as (ready & w' & Hready & Hnow & Hout & Hres & _).
    rewrite Hready in Hrun. destruct ready; simpl in Hrun.
    + destruct (_read_packet (set_world w' self)) as [[q| |] s] eqn:Hread;
        inversion Hrun; subst.
      exists w'. repeat split; [exact Hread | lia | assumption | assumption].
    + apply IH in Hrun as (w0 & Hread & Hlt & Hout0 & Hres0).
      rewrite set_world_twice in Hread. simpl in Hlt, Hout0, Hres0.
      exists w0. repeat split; [exact Hread | lia | congruence | congruence].
Qed.

Lemma wait_for_packet_inv (timeout : Z) (self : BNO080.t) (p : Packet.t)
    (self' : BNO080.t) :
  _wait_for_packet timeout self = (Ok p, self') ->
  exists w0,
    _read_packet (set_world w0 self) = (Ok p, self')
    /\ now (world self) < now w0
    /\ outbound w0 = outbound (world self)
    /\ resets w0 = resets (world self).
Proof.
  unfold _wait_for_packet, bind, monotonic, gets. apply wait_for_packet_loop_inv.
Qed.

Arguments Packet.header_from_buffer : simpl never.
Arguments Packet.init : simpl never.
Arguments Packet.is_error : simpl never.

Lemma packet_init_cons (b0 b1 b2 b3 : byte) (rest : list byte) :
  exists header,
    Packet.header_from_buffer (b0 :: b1 :: b2 :: b3 :: rest) = Ok header
    /\ channel_number header = byte_val b2
    /\ sequence_number header = byte_val b3
    /\ 0 <= data_length header
    /\ Packet.init (b0 :: b1 :: b2 :: b3 :: rest)
       = Ok (Packet.mk header (take (Z.to_nat (data_length header)) rest)).
Proof.
  eexists. split; [apply header_from_buffer_cons|].
  cbv zeta. simpl. split; [reflexivity|]. split; [reflexivity|].
  split; [lia|].
  unfold Packet.init. rewrite header_from_buffer_cons. cbv zeta. simpl.
  unfold _BNO_HEADER_LEN. rewrite drop_0.
  set (dl := 0 `max` _).
  replace (Z.to_nat (dl + 4) - Z.to_nat 4)%nat with (Z.to_nat dl) by lia.
  reflexivity.
Qed.

Lemma update_sequence_number_run (p : Packet.t) (self : BNO080.t) :
  _update_sequence_number p self
  = match setitem (_sequence_number self) (Packet.channel_number p)
            (sequence_number (Packet.header p)) with
    | Ok tracker => (Ok tt, set_sequence_number tracker self)
    | Raise e => (Raise e, self)
    | OutOfFuel => (OutOfFuel, self)
    end.
Proof.
  unfold _update_sequence_number, bind, gets, lift, modify.
  destruct (setitem _ _ _); reflexivity.
Qed.

(** What a successful [_read_packet] leaves: the packet is the one the
    receive buffer holds, its channel is in 0..5, the tracker has been
    assigned at that channel, and the flags and the readings are untouched. *)
Lemma read_packet_inv (self : BNO080.t) (p : Packet.t) (self' : BNO080.t) :
  _read_packet self = (Ok p, self') ->
  Packet.init (_data_buffer self') = Ok p
  /\ 0 <= Packet.channel_number p <= 5
  /\ setitem (_sequence_number self) (Packet.channel_number p)
       (sequence_number (Packet.header p)) = Ok (_sequence_number self')
  /\ Packet.data p
     = take (length (Packet.data p)) (drop 4 (_data_buffer self'))
  /\ (4 + length (Packet.data p) <= length (_data_buffer self'))%nat
  /\ _wait_for_initialize self' = _wait_for_initialize self
  /\ _init_complete self' = _init_complete self
  /\ _id_read self' = _id_read self
  /\ _readings self' = _readings self
  /\ now (world self') = now (world self)
  /\ outbound (world self') = outbound (world self)
  /\ resets (world self') = resets (world self)
  /\ exists raw, inbound (world self) = Frame raw :: inbound (world self').
Proof.
  unfold _read_packet. intros Hrun.
  destruct (inbound (world self)) as [|[|raw] rest] eqn:Hin; try discriminate Hrun.
  destruct raw as [|h0 [|h1 [|h2 [|h3 raw]]]]; try discriminate Hrun.
  simpl in Hrun.
  rewrite !Z.mul_0_r, !Z.add_0_r in Hrun.
  set (pbc := Z.land _ _) in Hrun.
  set (dl := 0 `max` (pbc - 4)) in Hrun.
  set (header := mkPacketHeader _ _ dl pbc) in Hrun.
  destruct (Packet.is_error header) eqn:Herr; [discriminate Hrun|].
  rewrite drop_0 in Hrun.
  destruct ((length (take (Z.to_nat dl) raw) <? Z.to_nat dl)%nat || _) eqn:Hfit;
    [discriminate Hrun|].
  apply orb_false_elim in Hfit as [Hbody Hbuf].
  apply Nat.ltb_ge in Hbody, Hbuf.
  assert (Hlen : length (take (Z.to_nat dl) raw) = Z.to_nat dl)
    by (rewrite length_take in *; lia).
  unfold _BNO_HEADER_LEN in Hrun. rewrite drop_0, Hlen in Hrun.
  replace (Z.to_nat (dl + 4) - Z.to_nat 4)%nat with (Z.to_nat dl) in Hrun by lia.
  rewrite take_app_length' in Hrun by (symmetry; exact Hlen).
  rewrite update_sequence_number_run in Hrun.
  destruct (setitem _ _ _) as [tracker| |] eqn:Hset; inversion Hrun; subst p self'.
  clear Hrun. unfold readinto. simpl. simpl in Hset.
  rewrite Hlen, drop_0, take_app_length' by (symmetry; exact Hlen).
  split; [|split; [|split; [|split; [|split]]]].
  - destruct (packet_init_cons h0 h1 h2 h3
                (take (Z.to_nat dl) raw
                 ++ drop (Z.to_nat dl) (drop 4 (_data_buffer self))))
      as (header' & Hheader' & _ & _ & _ & Hinit).
    rewrite header_from_buffer_cons in Hheader'. cbv zeta in Hheader'.
    fold pbc in Hheader'. fold dl in Hheader'. fold header in Hheader'.
    inversion Hheader'; subst header'.
    rewrite Hinit. simpl.
    rewrite take_app_length' by (symmetry; exact Hlen). reflexivity.
  - unfold Packet.channel_number. simpl.
    unfold Packet.is_error in Herr. simpl in Herr.
    pose proof (byte_val_range h2).
    destruct (Z.ltb_spec 5 (byte_val h2)); [discriminate Herr | lia].
  - exact Hset.
  - reflexivity.
  - rewrite length_app, Hlen, !length_drop in *. lia.
  - repeat split; eauto.
Qed.

(** ** The sequence tracker *)

Lemma setitem_lookup {A : Type} (l l' : list A) (i : Z) (x : A) :
  setitem l i x = Ok l' ->
  0 <= i ->
  l' !! Z.to_nat i = Some x
  /\ (forall c : nat, c <> Z.to_nat i -> l' !! c = l !! c)
  /\ length l' = length l.
Proof.
  unfold setitem, py_index. intros Hset Hi.
  destruct ((0 <=? i) && (i <? Z.of_nat (length l))) eqn:Hin.
  - apply andb_true_iff in Hin as [_ Hlt]. apply Z.ltb_lt in Hlt.
    inversion Hset; subst l'. split; [|split].
    + apply list_lookup_insert_eq. lia.
    + intros c Hc. apply list_lookup_insert_ne. congruence.
    + apply length_insert.
  - destruct ((- Z.of_nat (length l) <=? i) && (i <? 0)) eqn:Hneg;
      [|discriminate Hset].
    apply andb_true_iff in Hneg as [_ Hlt]. apply Z.ltb_lt in Hlt. lia.
Qed.

Lemma setitem_in_range {A : Type} (l : list A) (i : Z) (x : A) :
  0 <= i < Z.of_nat (length l) ->
  setitem l i x = Ok (<[Z.to_nat i := x]> l).
Proof.
  intros Hi. unfold setitem, py_index.
  assert (Hin : (0 <=? i) && (i <? Z.of_nat (length l)) = true).
  { apply andb_true_iff. split; [apply Z.leb_le | apply Z.ltb_lt]; lia. }
  rewrite Hin. reflexivity.
Qed.

(** A packet that is not a reset packet changes nothing but the three
    lifecycle flags, whatever [initialize] does. *)
Lemma handle_packet_frame (self_initialize : M unit) (p : Packet.t)
    (self : BNO080.t) :
  is_reset_packet p = false ->
  device (snd (_handle_packet self_initialize p self)) = device self.
Proof.
  unfold is_reset_packet, _handle_packet, BNO_CHANNEL_EXE,
    _BNO_CHANNEL_INPUT_SENSOR_REPORTS, _BNO_CHANNEL_SHTP_COMMAND,
    _BNO_CHANNEL_CONTROL, Packet.report_id.
  intros Hreset.
  destruct (Packet.channel_number p =? 3);
    destruct (Packet.channel_number p =? 0);
    destruct (Packet.channel_number p =? 1);
    destruct (Packet.channel_number p =? 2);
    run_driver; simpl in Hreset;
    repeat
      (match goal with
       | |- context [getitem ?buf ?i] => destruct (getitem buf i) eqn:?; simpl
       | |- context [if ?c then _ else _] => destruct c eqn:?; simpl
       end);
    try reflexivity; try discriminate.
Qed.

(** [_update_sequence_number] assigns the entry of the packet's channel,
    whatever the entry was. *)
Lemma update_sequence_number_spec (p : Packet.t) (self : BNO080.t) :
  0 <= Packet.channel_number p <= 5 ->
  length (_sequence_number self) = 6%nat ->
  exists self',
    _update_sequence_number p self = (Ok tt, self')
    /\ _sequence_number self' !! Z.to_nat (Packet.channel_number p)
       = Some (sequence_number (Packet.header p))
    /\ (forall c : nat,
          c <> Z.to_nat (Packet.channel_number p) ->
          _sequence_number self' !! c = _sequence_number self !! c)
    /\ length (_sequence_number self') = 6%nat.
Proof.
  intros Hchannel Hlen.
  rewrite update_sequence_number_run, setitem_in_range by lia.
  eexists. split; [reflexivity|]. simpl. split; [|split].
  - apply list_lookup_insert_eq. lia.
  - intros c Hc. apply list_lookup_insert_ne. congruence.
  - rewrite length_insert. exact Hlen.
Qed.

(** C7: a packet that the read loop hands out has a channel in 0..5, and
    the tracker entry of that channel is the packet's sequence number, the
    other entries being as before; the entry is assigned by
    [_update_sequence_number], not compared with what it held, so it is the
    last number seen; and [_handle_packet] leaves the tracker as the read
    left it, unless the packet is a reset packet that restarts the
    initialisation. *)
Theorem sequence_tracker_last_seen (self_initialize : M unit) (timeout : Z)
    (self self1 : BNO080.t) (p : Packet.t) :
  _wait_for_packet timeout self = (Ok p, self1) ->
  0 <= Packet.channel_number p <= 5
  /\ _sequence_number self1 !! Z.to_nat (Packet.channel_number p)
     = Some (sequence_number (Packet.header p))
  /\ (forall c : nat,
        c <> Z.to_nat (Packet.channel_number p) ->
        _sequence_number self1 !! c = _sequence_number self !! c)
  /\ fst (_update_sequence_number p self) = Ok tt
  /\ _sequence_number (snd (_update_sequence_number p self))
     = _sequence_number self1
  /\ (is_reset_packet p = false ->
      _sequence_number (snd (_handle_packet self_initialize p self1))
      = _sequence_number self1).
Proof.
  intros Hwait.
  apply wait_for_packet_inv in Hwait as (w0 & Hread & _).
  apply read_packet_inv in Hread as (_ & Hchannel & Hset & _).
  simpl in Hset.
  destruct (setitem_lookup _ _ _ _ Hset) as (Hentry & Hothers & _); [lia|].
  split; [exact Hchannel|]. split; [exact Hentry|]. split; [exact Hothers|].
  rewrite update_sequence_number_run, Hset. simpl.
  split; [reflexivity|]. split; [reflexivity|].
  intros Hreset.
  pose proof (handle_packet_frame self_initialize p self1 Hreset) as Hframe.
  unfold device in Hframe. congruence.
Qed.

(** Sequence number 9, then sequence number 3, on channel 3: the entry of
    channel 3 ends at 3. *)
Lemma sequence_tracker_last_seen_witness :
  let self0 := fresh out_of_order in
  let self1 := snd (_wait_for_packet _PACKET_READ_TIMEOUT self0) in
  let p2 := packet_of (_wait_for_packet _PACKET_READ_TIMEOUT self1) in
  let self2 := snd (_wait_for_packet _PACKET_READ_TIMEOUT self1) in
  _sequence_number self1 !! 3%nat = Some 9
  /\ sequence_number (Packet.header p2) = 3
  /\ 0 <= Packet.channel_number p2 <= 5
  /\ _sequence_number self2 !! Z.to_nat (Packet.channel_number p2)
     = Some (sequence_number (Packet.header p2))
  /\ (forall c : nat,
        c <> Z.to_nat (Packet.channel_number p2) ->
        _sequence_number self2 !! c = _sequence_number self1 !! c)
  /\ fst (_update_sequence_number p2 self1) = Ok tt
  /\ _sequence_number (snd (_update_sequence_number p2 self1))
     = _sequence_number self2
  /\ (is_reset_packet p2 = false ->
      _sequence_number (snd (_handle_packet (initialize 0) p2 self2))
      = _sequence_number self2).
Proof.
  cbv zeta. split; [vm_compute; reflexivity|]. split; [vm_compute; reflexivity|].
  apply (sequence_tracker_last_seen (initialize 0) _PACKET_READ_TIMEOUT).
  vm_compute. reflexivity.
Defined.

(** ** [_wait_for_packet_type] *)

Arguments _handle_packet : simpl never.

(** One pass of the loop. *)
Lemma wait_for_packet_type_loop_step (self_initialize : M unit) (fuel : nat)
    (channel : Z) (report_id : option Z) (timeout start : Z) (self : BNO080.t) :
  wait_for_packet_type_loop self_initialize (S fuel) channel report_id timeout
    start self
  = if now (world self) - start <? timeout then
      match _wait_for_packet _PACKET_READ_TIMEOUT self with
      | (Ok p, self1) =>
          match wanted channel report_id p with
          | Ok true => (Ok p, self1)
          | Ok false =>
              match _handle_packet self_initialize p self1 with
              | (Ok _, self2) =>
                  wait_for_packet_type_loop self_initialize fuel channel
                    report_id timeout start self2
              | (Raise e, self2) => (Raise e, self2)
              | (OutOfFuel, self2) => (OutOfFuel, self2)
              end
          | Raise e => (Raise e, self1)
          | OutOfFuel => (OutOfFuel, self1)
          end
      | (Raise e, self1) => (Raise e, self1)
      | (OutOfFuel, self1) => (OutOfFuel, self1)
      end
    else (Raise (Timeout_channel channel), self).
Proof.
  simpl. unfold bind, _elapsed, monotonic, gets, ret, lift, raise. simpl.
  destruct (now (world self) - start <? timeout); [|reflexivity].
  destruct (_wait_for_packet _PACKET_READ_TIMEOUT self) as [[p|e|] self1];
    try reflexivity.
  destruct (wanted channel report_id p) as [[|]|e|]; reflexivity.
Qed.

Lemma wait_for_packet_type_unfold (self_initialize : M unit) (channel : Z)
    (report_id : option Z) (timeout : Z) (self : BNO080.t) :
  _wait_for_packet_type self_initialize channel report_id timeout self
  = wait_for_packet_type_loop self_initialize (S (Z.to_nat timeout)) channel
      report_id timeout (now (world self)) self.
Proof. reflexivity. Qed.

(** The loop returns no packet but one it was waiting for, and it returns it
    as the poll left the instance, without dispatching it. *)
Lemma wait_for_packet_type_loop_returns (self_initialize : M unit)
    (channel : Z) (report_id : option Z) (timeout start : Z) (fuel : nat) :
  forall (self : BNO080.t) (p : Packet.t) (self' : BNO080.t),
    wait_for_packet_type_loop self_initialize fuel channel report_id timeout
      start self = (Ok p, self') ->
    wanted channel report_id p = Ok true
    /\ exists self0,
         _wait_for_packet _PACKET_READ_TIMEOUT self0 = (Ok p, self')
         /\ now (world self0) - start < timeout.
Proof.
  induction fuel as [|fuel IH]; intros self p self' Hrun.
  - discriminate Hrun.
  - rewrite wait_for_packet_type_loop_step in Hrun.
    destruct (Z.ltb_spec (now (world self) - start) timeout) as [Hlt|Hge];
      [|discriminate Hrun].
    destruct (_wait_for_packet _PACKET_READ_TIMEOUT self) as [[q|e|] self1]
      eqn:Hpoll; try discriminate Hrun.
    destruct (wanted channel report_id q) as [[|]|e|] eqn:Hwanted;
      try discriminate Hrun.
    + inversion Hrun; subst q self1. split; [exact Hwanted|].
      exists self. split; assumption.
    + destruct (_handle_packet self_initialize q self1) as [[u|e|] self2];
        try discriminate Hrun.
      apply IH in Hrun. exact Hrun.
Qed.

Lemma header_from_buffer_fuel (buf : list byte) :
  Packet.header_from_buffer buf <> OutOfFuel.
Proof.
  unfold Packet.header_from_buffer.
  destruct (unpack_from_outcome fmt_H buf 0) as [[v0 H0] | H0]; rewrite H0;
    simpl; [|discriminate].
  destruct (unpack_from_outcome fmt_B buf 2) as [[v2 H2] | H2]; rewrite H2;
    simpl; [|discriminate].
  destruct (unpack_from_outcome fmt_B buf 3) as [[v3 H3] | H3]; rewrite H3;
    simpl; discriminate.
Qed.

Lemma packet_init_fuel (buf : list byte) : Packet.init buf <> OutOfFuel.
Proof.
  unfold Packet.init. pose proof (header_from_buffer_fuel buf) as Hfuel.
  destruct (Packet.header_from_buffer buf); simpl; congruence.
Qed.

(** [_read_packet] takes no time in the model and is never cut short. *)
Lemma read_packet_clock (self : BNO080.t) :
  fst (_read_packet self) <> OutOfFuel
  /\ now (world (snd (_read_packet self))) = now (world self).
Proof.
  unfold _read_packet.
  destruct (inbound (world self)) as [|[|raw] rest]; simpl;
    try (split; [discriminate | reflexivity]).
  destruct (length (take 4 raw) <? 4)%nat; simpl;
    [split; [discriminate | reflexivity]|].
  destruct (Packet.header_from_buffer _) as [header|e|] eqn:Hheader; simpl;
    try (split; [discriminate | reflexivity]).
  - destruct (Packet.is_error header); simpl;
      [split; [discriminate | reflexivity]|].
    destruct (_ || _); simpl; [split; [discriminate | reflexivity]|].
    destruct (Packet.init _) as [p|e|] eqn:Hinit; simpl;
      try (split; [discriminate | reflexivity]).
    + rewrite update_sequence_number_run.
      destruct (setitem _ _ _) eqn:Hset; simpl;
        try (split; [discriminate | reflexivity]).
      unfold setitem in Hset. destruct (py_index _ _); discriminate Hset.
    + exfalso. exact (packet_init_fuel _ Hinit).
  - exfalso. exact (header_from_buffer_fuel _ Hheader).
Qed.

(** A poll is never cut short by its fuel, and it is over by its own
    deadline: [timeout] after it started. *)
Lemma wait_for_packet_loop_clock (timeout start : Z) (fuel : nat) :
  forall self : BNO080.t,
    start <= now (world self) ->
    (Z.to_nat (start + timeout - now (world self)) < fuel)%nat ->
    fst (wait_for_packet_loop fuel timeout start self) <> OutOfFuel
    /\ now (world self)
       <= now (world (snd (wait_for_packet_loop fuel timeout start self)))
       <= Z.max (now (world self)) (start + timeout).
Proof.
  induction fuel as [|fuel IH]; intros self Hstart Hfuel; [lia|].
  simpl. unfold bind, _elapsed, monotonic, gets, ret, raise. simpl.
  destruct (Z.ltb_spec (now (world self) - start) timeout) as [Hlt|Hge];
    [|simpl; split; [discriminate | lia]].
  destruct (data_ready_spec self) as (ready & w' & Hready & Hnow & _).
  rewrite Hready. destruct ready; simpl.
  - pose proof (read_packet_clock (set_world w' self)) as [Hfuel' Hclock].
    simpl in Hclock.
    destruct (_read_packet (set_world w' self)) as [[p|e|] self1]; simpl in *;
      split; try discriminate; try lia; try congruence.
  - destruct (IH (set_world w' self)) as [Hfuel' Hclock]; simpl; try lia.
    split; [exact Hfuel'|]. simpl in Hclock. lia.
Qed.

Lemma wait_for_packet_clock (timeout : Z) (self : BNO080.t) :
  fst (_wait_for_packet timeout self) <> OutOfFuel
  /\ now (world self)
     <= now (world (snd (_wait_for_packet timeout self)))
     <= now (world self) + Z.max 0 timeout.
Proof.
  unfold _wait_for_packet, bind, monotonic, gets.
  destruct (wait_for_packet_loop_clock timeout (now (world self))
              (S (Z.to_nat timeout)) self) as [Hfuel Hclock]; try lia.
  split; [exact Hfuel | lia].
Qed.

(** When a packet is the one waited for: it is on the requested channel and,
    if a report id other than 0 was asked for, it starts with that id. *)
Lemma wanted_true (channel : Z) (report_id : option Z) (p : Packet.t) :
  wanted channel report_id p = Ok true
  <-> Packet.channel_number p = channel
      /\ (forall r, report_id = Some r -> r <> 0 -> Packet.report_id p = Ok r).
Proof.
  unfold wanted.
  destruct (Z.eqb_spec (Packet.channel_number p) channel) as [Hch|Hch].
  - destruct report_id as [r|]; simpl.
    + destruct (Z.eqb_spec r 0) as [Hr|Hr]; simpl.
      * split; [intros _; split; [exact Hch|]; intros r' Hr'; congruence|reflexivity].
      * destruct (Packet.report_id p) as [v|e|]; simpl.
        -- destruct (Z.eqb_spec v r) as [Hv|Hv].
           ++ split; [intros _; split; [exact Hch|]; intros r' Hr' _; congruence
                     |reflexivity].
           ++ split; [discriminate|].
              intros [_ H]. specialize (H r eq_refl Hr). congruence.
        -- split; [discriminate|].
           intros [_ H]. specialize (H r eq_refl Hr). discriminate H.
        -- split; [discriminate|].
           intros [_ H]. specialize (H r eq_refl Hr). discriminate H.
    + split; [intros _; split; [exact Hch|]; discriminate|reflexivity].
  - split; [discriminate | intros [H _]; contradiction].
Qed.

(** C3, as the code has it: [_wait_for_packet_type] fixes its deadline once,
    at the start of the call, and tests it before each poll.  A pass that
    finds the deadline elapsed raises the timeout of the call; otherwise the
    pass polls with the poll's own limit [_PACKET_READ_TIMEOUT], whatever the
    caller's timeout: a packet that is on the requested channel (and has the
    requested report id, when one other than 0 was given) is returned as
    the poll left the instance, any other packet goes to [_handle_packet]
    and the loop goes on with the same deadline, and a poll that fails makes
    the call fail with the poll's error.  The call returns no packet but a
    wanted one.  Each poll ends within its own limit, so the caller's
    timeout is not a bound on the wait. *)
Theorem wait_for_packet_type_between_polls (self_initialize : M unit)
    (channel : Z) (report_id : option Z) (timeout : Z) :
  (forall self : BNO080.t,
      _wait_for_packet_type self_initialize channel report_id timeout self
      = wait_for_packet_type_loop self_initialize (S (Z.to_nat timeout)) channel
          report_id timeout (now (world self)) self)
  /\ (forall (fuel : nat) (start : Z) (self : BNO080.t),
        timeout <= now (world self) - start ->
        wait_for_packet_type_loop self_initialize (S fuel) channel report_id
          timeout start self
        = (Raise (Timeout_channel channel), self))
  /\ (forall (fuel : nat) (start : Z) (self self1 : BNO080.t) (p : Packet.t),
        now (world self) - start < timeout ->
        _wait_for_packet _PACKET_READ_TIMEOUT self = (Ok p, self1) ->
        (wanted channel report_id p = Ok true ->
         wait_for_packet_type_loop self_initialize (S fuel) channel report_id
           timeout start self
         = (Ok p, self1))
        /\ (wanted channel report_id p = Ok false ->
            wait_for_packet_type_loop self_initialize (S fuel) channel
              report_id timeout start self
            = bind (_handle_packet self_initialize p)
                (fun _ =>
                   wait_for_packet_type_loop self_initialize fuel channel
                     report_id timeout start)
                self1))
  /\ (forall (fuel : nat) (start : Z) (self self1 : BNO080.t) (e : Exn),
        now (world self) - start < timeout ->
        _wait_for_packet _PACKET_READ_TIMEOUT self = (Raise e, self1) ->
        wait_for_packet_type_loop self_initialize (S fuel) channel report_id
          timeout start self
        = (Raise e, self1))
  /\ (forall (self self' : BNO080.t) (p : Packet.t),
        _wait_for_packet_type self_initialize channel report_id timeout self
        = (Ok p, self') ->
        Packet.channel_number p = channel
        /\ (forall r, report_id = Some r -> r <> 0 -> Packet.report_id p = Ok r))
  /\ (forall self : BNO080.t,
        fst (_wait_for_packet _PACKET_READ_TIMEOUT self) <> OutOfFuel
        /\ now (world (snd (_wait_for_packet _PACKET_READ_TIMEOUT self)))
           <= now (world self) + _PACKET_READ_TIMEOUT).
Proof.
  split; [intros self; apply wait_for_packet_type_unfold|].
  split; [|split; [|split; [|split]]].
  - intros fuel start self Hdeadline.
    rewrite wait_for_packet_type_loop_step.
    destruct (Z.ltb_spec (now (world self) - start) timeout); [lia|reflexivity].
  - intros fuel start self self1 p Hbefore Hpoll.
    rewrite wait_for_packet_type_loop_step, Hpoll.
    destruct (Z.ltb_spec (now (world self) - start) timeout); [|lia].
    split; intros Hwanted; rewrite Hwanted; [reflexivity|].
    unfold bind. destruct (_handle_packet self_initialize p self1) as [[u|e|] s];
      reflexivity.
  - intros fuel start self self1 e Hbefore Hpoll.
    rewrite wait_for_packet_type_loop_step, Hpoll.
    destruct (Z.ltb_spec (now (world self) - start) timeout); [reflexivity|lia].
  - intros self self' p Hrun. rewrite wait_for_packet_type_unfold in Hrun.
    apply wait_for_packet_type_loop_returns in Hrun as [Hwanted _].
    apply wanted_true. exact Hwanted.
  - intros self. destruct (wait_for_packet_clock _PACKET_READ_TIMEOUT self)
      as [Hfuel Hclock].
    split; [exact Hfuel|]. unfold _PACKET_READ_TIMEOUT in *. lia.
Qed.

(** An input report arrives first and is dispatched, the get-feature
    response arrives next and is returned; a pass made after the deadline
    raises. *)
Lemma wait_for_packet_type_between_polls_witness :
  let self := fresh report_then_response in
  let first := _wait_for_packet _PACKET_READ_TIMEOUT self in
  let self1 := snd first in
  let self2 := snd (_handle_packet (initialize 0) (packet_of first) self1) in
  let second := _wait_for_packet _PACKET_READ_TIMEOUT self2 in
  wait_for_packet_type_loop (initialize 0) 2 _BNO_CHANNEL_CONTROL
    (Some _BNO_CMD_GET_FEATURE_RESPONSE) default_timeout 0 self
  = bind (_handle_packet (initialize 0) (packet_of first))
      (fun _ =>
         wait_for_packet_type_loop (initialize 0) 1 _BNO_CHANNEL_CONTROL
           (Some _BNO_CMD_GET_FEATURE_RESPONSE) default_timeout 0)
      self1
  /\ wait_for_packet_type_loop (initialize 0) 1 _BNO_CHANNEL_CONTROL
       (Some _BNO_CMD_GET_FEATURE_RESPONSE) default_timeout 0 self2
     = (Ok (packet_of second), snd second)
  /\ wait_for_packet_type_loop (initialize 0) 1 _BNO_CHANNEL_CONTROL
       (Some _BNO_CMD_GET_FEATURE_RESPONSE) default_timeout (-5000) self
     = (Raise (Timeout_channel _BNO_CHANNEL_CONTROL), self).
Proof.
  cbv zeta.
  destruct (wait_for_packet_type_between_polls (initialize 0)
              _BNO_CHANNEL_CONTROL (Some _BNO_CMD_GET_FEATURE_RESPONSE)
              default_timeout) as (_ & Hdeadline & Hpass & _).
  split; [|split].
  - apply Hpass; vm_compute; reflexivity.
  - apply Hpass; vm_compute; reflexivity.
  - apply Hdeadline. vm_compute. discriminate.
Defined.

(** The caller's timeout does not bound the wait.  With the default timeout
    of 5 seconds and a transport that stays silent, the call ends after 15
    seconds, with the timeout of the poll; and when a wanted packet arrives
    after 6 seconds, the deadline has passed without a match and yet the
    call returns the packet. *)
Lemma wait_outlasts_caller_timeout :
  let quiet := fresh (silent 0) in
  let late := fresh late_arrival in
  let wait := _wait_for_packet_type (initialize 0) _BNO_CHANNEL_CONTROL None
                default_timeout in
  fst (wait quiet) = Raise Timeout_packet
  /\ now (world (snd (wait quiet))) - now (world quiet) = 15000
  /\ ~ now (world (snd (wait quiet))) - now (world quiet) <= default_timeout
  /\ (exists p, fst (wait late) = Ok p
                /\ Packet.channel_number p = _BNO_CHANNEL_CONTROL)
  /\ now (world (snd (wait late))) - now (world late) = 6001
  /\ ~ now (world (snd (wait late))) - now (world late) <= default_timeout.
Proof.
  cbv zeta. split; [vm_compute; reflexivity|]. split; [vm_compute; reflexivity|].
  split; [vm_compute; intros H; apply H; reflexivity|].
  split; [eexists; split; vm_compute; reflexivity|].
  split; [vm_compute; reflexivity|].
  vm_compute. intros H. apply H. reflexivity.
Qed.

(** ** A report id of 0 *)

Lemma wanted_zero (channel : Z) (p : Packet.t) :
  wanted channel (Some 0) p = wanted channel None p
  /\ wanted channel (Some 0) p = Ok (Packet.channel_number p =? channel).
Proof.
  unfold wanted. simpl.
  destruct (Packet.channel_number p =? channel); split; reflexivity.
Qed.

Lemma wait_for_packet_type_loop_zero (self_initialize : M unit) (channel : Z)
    (timeout start : Z) (fuel : nat) :
  forall self : BNO080.t,
    wait_for_packet_type_loop self_initialize fuel channel (Some 0) timeout
      start self
    = wait_for_packet_type_loop self_initialize fuel channel None timeout
        start self.
Proof.
  induction fuel as [|fuel IH]; intros self; [reflexivity|].
  rewrite !wait_for_packet_type_loop_step.
  destruct (now (world self) - start <? timeout); [|reflexivity].
  destruct (_wait_for_packet _PACKET_READ_TIMEOUT self) as [[p|e|] self1];
    try reflexivity.
  destruct (wanted_zero channel p) as [Hsame _]. rewrite Hsame.
  destruct (wanted channel None p) as [[|]|e|]; try reflexivity.
  destruct (_handle_packet self_initialize p self1) as [[u|e|] self2];
    try reflexivity.
  apply IH.
Qed.

(** C9: with [report_id = 0] the call is the call without a report id: the
    test of a packet looks at its channel only (the report id of the packet
    is not even read), so a packet that a poll delivers on the requested
    channel is returned whatever its report id, and every packet returned is
    on the requested channel. *)
Theorem wait_for_packet_type_report_id_zero (self_initialize : M unit)
    (channel timeout : Z) :
  (forall self : BNO080.t,
      _wait_for_packet_type self_initialize channel (Some 0) timeout self
      = _wait_for_packet_type self_initialize channel None timeout self)
  /\ (forall p : Packet.t,
        wanted channel (Some 0) p = Ok (Packet.channel_number p =? channel))
  /\ (forall (fuel : nat) (start : Z) (self self1 : BNO080.t) (p : Packet.t),
        now (world self) - start < timeout ->
        _wait_for_packet _PACKET_READ_TIMEOUT self = (Ok p, self1) ->
        Packet.channel_number p = channel ->
        wait_for_packet_type_loop self_initialize (S fuel) channel (Some 0)
          timeout start self
        = (Ok p, self1))
  /\ (forall (self self1 : BNO080.t) (p : Packet.t),
        0 < timeout ->
        _wait_for_packet _PACKET_READ_TIMEOUT self = (Ok p, self1) ->
        Packet.channel_number p = channel ->
        _wait_for_packet_type self_initialize channel (Some 0) timeout self
        = (Ok p, self1)).
Proof.
  assert (Hpass :
    forall (fuel : nat) (start : Z) (self self1 : BNO080.t) (p : Packet.t),
      now (world self) - start < timeout ->
      _wait_for_packet _PACKET_READ_TIMEOUT self = (Ok p, self1) ->
      Packet.channel_number p = channel ->
      wait_for_packet_type_loop self_initialize (S fuel) channel (Some 0)
        timeout start self
      = (Ok p, self1)).
  { intros fuel start self self1 p Hbefore Hpoll Hchannel.
    rewrite wait_for_packet_type_loop_step, Hpoll.
    destruct (Z.ltb_spec (now (world self) - start) timeout); [|lia].
    destruct (wanted_zero channel p) as [_ Hw]. rewrite Hw.
    rewrite (proj2 (Z.eqb_eq _ _) Hchannel). reflexivity. }
  split; [|split; [|split]].
  - intros self. rewrite !wait_for_packet_type_unfold.
    apply wait_for_packet_type_loop_zero.
  - intros p. apply wanted_zero.
  - exact Hpass.
  - intros self self1 p Htimeout Hpoll Hchannel.
    rewrite wait_for_packet_type_unfold. apply Hpass; [lia | assumption..].
Qed.

(** A get-feature response (report id 0xFC, not 0) is returned to a caller
    that passed [report_id = 0]. *)
Lemma wait_for_packet_type_report_id_zero_witness :
  let self := fresh response_first in
  let poll := _wait_for_packet _PACKET_READ_TIMEOUT self in
  Packet.report_id (packet_of poll) = Ok 0xFC
  /\ _wait_for_packet_type (initialize 0) _BNO_CHANNEL_CONTROL (Some 0)
       default_timeout self
     = (Ok (packet_of poll), snd poll)
  /\ _wait_for_packet_type (initialize 0) _BNO_CHANNEL_CONTROL (Some 0)
       default_timeout self
     = _wait_for_packet_type (initialize 0) _BNO_CHANNEL_CONTROL None
         default_timeout self.
Proof.
  cbv zeta.
  destruct (wait_for_packet_type_report_id_zero (initialize 0)
              _BNO_CHANNEL_CONTROL default_timeout) as (Hsame & _ & _ & Hfirst).
  split; [vm_compute; reflexivity|]. split.
  - apply Hfirst; vm_compute; reflexivity.
  - apply Hsame.
Defined.

(** ** The sensor id query *)

Arguments _wait_for_packet_type : simpl never.
Arguments _get_data : simpl never.
Arguments unpack_from : simpl never.

(** The packet that [_wait_for_packet_type] returns is the one the receive
    buffer holds. *)
Lemma wait_for_packet_type_buffer (self_initialize : M unit) (channel : Z)
    (report_id : option Z) (timeout : Z) (self self' : BNO080.t) (p : Packet.t) :
  _wait_for_packet_type self_initialize channel report_id timeout self
  = (Ok p, self') ->
  wanted channel report_id p = Ok true
  /\ Packet.init (_data_buffer self') = Ok p
  /\ Packet.data p = take (length (Packet.data p)) (drop 4 (_data_buffer self'))
  /\ (4 + length (Packet.data p) <= length (_data_buffer self'))%nat.
Proof.
  intros Hrun. rewrite wait_for_packet_type_unfold in Hrun.
  apply wait_for_packet_type_loop_returns in Hrun
    as (Hwanted & self0 & Hpoll & _).
  apply wait_for_packet_inv in Hpoll as (w0 & Hread & _).
  apply read_packet_inv in Hread as (Hinit & _ & _ & Hdata & Hlen & _).
  auto.
Qed.

(** A field that lies within the payload is read from the buffer four bytes
    further. *)
Lemma unpack_from_payload (f : Format) (buf payload : list byte) (offset : nat) :
  payload = take (length payload) (drop 4 buf) ->
  (offset + fmt_size f <= length payload)%nat ->
  unpack_from f buf (offset + 4) = unpack_from f payload offset.
Proof.
  intros Hpayload Hlen. unfold unpack_from.
  assert (Hfield : take (fmt_size f) (drop offset payload)
                   = take (fmt_size f) (drop (offset + 4) buf)).
  { rewrite Hpayload at 1. rewrite skipn_firstn_comm, take_take, drop_drop.
    f_equal; [lia|]. f_equal. lia. }
  rewrite Hfield. reflexivity.
Qed.

Lemma getitem_payload (buf payload : list byte) (i : nat) :
  payload = take (length payload) (drop 4 buf) ->
  (i < length payload)%nat ->
  getitem buf (i + 4) = getitem payload i.
Proof.
  intros Hpayload Hlen.
  assert (Hbyte : payload !! i = buf !! (i + 4)%nat).
  { rewrite Hpayload, lookup_take_lt, lookup_drop by lia. f_equal. lia. }
  unfold getitem. rewrite Hbyte. reflexivity.
Qed.

Lemma unpack_from_long (f : Format) (buf : list byte) (offset : nat) :
  (offset + fmt_size f <= length buf)%nat ->
  exists v, unpack_from f buf offset = Ok v.
Proof.
  intros Hlen. unfold unpack_from.
  assert (Hfield : (length (take (fmt_size f) (drop offset buf)) <? fmt_size f)%nat
                   = false).
  { apply Nat.ltb_ge. rewrite length_take, length_drop. lia. }
  rewrite Hfield. eexists. reflexivity.
Qed.

Lemma get_data_run (index : Z) (f : Format) (self : BNO080.t) :
  _get_data index f self
  = (unpack_from f (_data_buffer self) (Z.to_nat (index + 4)), self).
Proof. reflexivity. Qed.

(** [_parse_sensor_id] reads the instance and leaves it as it is. *)
Lemma parse_sensor_id_pure (self : BNO080.t) :
  snd (_parse_sensor_id self) = self.
Proof.
  unfold _parse_sensor_id, bind, gets, lift, ret. simpl.
  destruct (getitem (_data_buffer self) 4); try reflexivity.
  destruct (negb _); try reflexivity.
  repeat (match goal with
          | |- context [unpack_from ?f ?b ?o] => destruct (unpack_from f b o)
          end; try reflexivity).
Qed.

(** When [_parse_sensor_id] returns a number, the buffer starts a
    product-id response and the number is the 32-bit field at offset 8 of
    the buffer, which is offset 4 of the payload. *)
Lemma parse_sensor_id_inv (self self' : BNO080.t) (part : Z) :
  _parse_sensor_id self = (Ok (Some part), self') ->
  self' = self
  /\ getitem (_data_buffer self) 4 = Ok _SHTP_REPORT_PRODUCT_ID_RESPONSE
  /\ unpack_from fmt_I (_data_buffer self) 8 = Ok part.
Proof.
  intros Hrun. pose proof (parse_sensor_id_pure self) as Hpure.
  rewrite Hrun in Hpure. simpl in Hpure. split; [exact Hpure|].
  unfold _parse_sensor_id, bind, gets, lift, ret in Hrun. simpl in Hrun.
  destruct (getitem (_data_buffer self) 4) as [b4| |]; try discriminate Hrun.
  destruct (Z.eqb_spec b4 _SHTP_REPORT_PRODUCT_ID_RESPONSE) as [Hb4|Hb4];
    simpl in Hrun; [|discriminate Hrun].
  split; [congruence|].
  change (Z.to_nat (4 + 4)) with 8%nat in Hrun.
  repeat (match type of Hrun with
          | context [unpack_from ?f ?b ?o] =>
              destruct (unpack_from f b o) eqn:?; try discriminate Hrun
          end).
  inversion Hrun; subst. reflexivity.
Qed.

(** On a buffer that holds a product-id response with all its fields,
    [_parse_sensor_id] returns the part number. *)
Lemma parse_sensor_id_run (self : BNO080.t) (p : Packet.t) (part : Z) :
  Packet.data p = take (length (Packet.data p)) (drop 4 (_data_buffer self)) ->
  (4 + length (Packet.data p) <= length (_data_buffer self))%nat ->
  (14 <= length (Packet.data p))%nat ->
  Packet.report_id p = Ok _SHTP_REPORT_PRODUCT_ID_RESPONSE ->
  unpack_from fmt_I (Packet.data p) 4 = Ok part ->
  _parse_sensor_id self = (Ok (Some part), self).
Proof.
  intros Hdata Hbuf Hlen Hreport Hpart.
  unfold Packet.report_id in Hreport.
  rewrite <- (getitem_payload (_data_buffer self)) in Hreport
    by (assumption || lia).
  rewrite <- (unpack_from_payload fmt_I (_data_buffer self)) in Hpart
    by (assumption || simpl; lia).
  unfold _parse_sensor_id, bind, gets, lift, ret. simpl in *.
  rewrite Hreport. simpl.
  change (Z.to_nat (2 + 4)) with 6%nat. change (Z.to_nat (3 + 4)) with 7%nat.
  change (Z.to_nat (12 + 4)) with 16%nat. change (Z.to_nat (4 + 4)) with 8%nat.
  change (Z.to_nat (8 + 4)) with 12%nat.
  destruct (unpack_from_long fmt_B (_data_buffer self) 6) as [v1 H1];
    [simpl; lia|].
  destruct (unpack_from_long fmt_B (_data_buffer self) 7) as [v2 H2];
    [simpl; lia|].
  destruct (unpack_from_long fmt_H (_data_buffer self) 16) as [v3 H3];
    [simpl; lia|].
  destruct (unpack_from_long fmt_I (_data_buffer self) 12) as [v4 H4];
    [simpl; lia|].
  rewrite H1, H2, H3, Hpart, H4. reflexivity.
Qed.

Arguments _parse_sensor_id : simpl never.

(** One pass of the [while True] loop of [_check_id]. *)
Lemma check_id_loop_step (self_initialize : M unit) (fuel : nat)
    (self : BNO080.t) :
  check_id_loop self_initialize (S fuel) self
  = match _wait_for_packet_type self_initialize _BNO_CHANNEL_CONTROL
            (Some _SHTP_REPORT_PRODUCT_ID_RESPONSE) default_timeout self with
    | (Ok _, self1) =>
        match _parse_sensor_id self1 with
        | (Ok sensor_id, self2) =>
            if truthy sensor_id then (Ok true, set_id_read true self2)
            else check_id_loop self_initialize fuel self2
        | (Raise e, self2) => (Raise e, self2)
        | (OutOfFuel, self2) => (OutOfFuel, self2)
        end
    | (Raise e, self1) => (Raise e, self1)
    | (OutOfFuel, self1) => (OutOfFuel, self1)
    end.
Proof.
  simpl. unfold bind, modify, ret.
  destruct (_wait_for_packet_type _ _ _ _ self) as [[p|e|] self1];
    try reflexivity.
  destruct (_parse_sensor_id self1) as [[sensor_id|e|] self2]; try reflexivity.
  destruct (truthy sensor_id); reflexivity.
Qed.

Lemma check_id_loop_returns (self_initialize : M unit) (fuel : nat) :
  forall (self self' : BNO080.t) (b : bool),
    check_id_loop self_initialize fuel self = (Ok b, self') ->
    b = true
    /\ _id_read self' = true
    /\ exists (p : Packet.t) (part : Z),
         Packet.init (_data_buffer self') = Ok p
         /\ Packet.channel_number p = _BNO_CHANNEL_CONTROL
         /\ Packet.report_id p = Ok _SHTP_REPORT_PRODUCT_ID_RESPONSE
         /\ unpack_from fmt_I (_data_buffer self') 8 = Ok part
         /\ part <> 0
         /\ ((8 <= length (Packet.data p))%nat ->
             unpack_from fmt_I (Packet.data p) 4 = Ok part).
Proof.
  induction fuel as [|fuel IH]; intros self self' b Hrun; [discriminate Hrun|].
  rewrite check_id_loop_step in Hrun.
  destruct (_wait_for_packet_type _ _ _ _ self) as [[p|e|] self1] eqn:Hwait;
    try discriminate Hrun.
  pose proof (parse_sensor_id_pure self1) as Hpure.
  destruct (_parse_sensor_id self1) as [[sensor_id|e|] self2] eqn:Hparse;
    try discriminate Hrun.
  simpl in Hpure. subst self2.
  destruct sensor_id as [part|]; simpl in Hrun; [|apply IH in Hrun; exact Hrun].
  destruct (Z.eqb_spec part 0) as [Hzero|Hpart]; simpl in Hrun;
    [apply IH in Hrun; exact Hrun|].
  inversion Hrun; subst b self'. split; [reflexivity|]. split; [reflexivity|].
  apply wait_for_packet_type_buffer in Hwait as (Hwanted & Hinit & Hdata & Hlen).
  apply wanted_true in Hwanted as [Hchannel Hreport].
  apply parse_sensor_id_inv in Hparse as (_ & _ & Hfield).
  exists p, part. simpl.
  split; [exact Hinit|]. split; [exact Hchannel|].
  split; [apply Hreport; [reflexivity | discriminate]|].
  split; [exact Hfield|]. split; [exact Hpart|].
  intros Hlong.
  rewrite <- (unpack_from_payload fmt_I (_data_buffer self1))
    by (assumption || simpl; lia).
  exact Hfield.
Qed.

(** C10, as the code has it: [_check_id] on an instance whose id was not
    read returns nothing but [True], with [_id_read] set, and only after a
    Control-channel product-id response (report 0xF8) with the 32-bit
    little-endian word at offset 8 of the receive buffer not 0: the buffer
    holds that response when the call returns.  The word is the part number,
    the field at payload offset 4, when the payload of the response has 8
    bytes or more; for a shorter response it is what earlier frames left in
    the buffer.  A pass of the loop that receives a product-id response with
    all its fields and part number 0 neither returns nor sets [_id_read]:
    the loop waits for the next response.  An instance whose id was read
    returns [True] at once. *)
Theorem check_id_part_number (self_initialize : M unit) :
  (forall (fuel : nat) (self self' : BNO080.t) (b : bool),
      _id_read self = false ->
      _check_id self_initialize fuel self = (Ok b, self') ->
      b = true
      /\ _id_read self' = true
      /\ exists (p : Packet.t) (part : Z),
           Packet.init (_data_buffer self') = Ok p
           /\ Packet.channel_number p = _BNO_CHANNEL_CONTROL
           /\ Packet.report_id p = Ok _SHTP_REPORT_PRODUCT_ID_RESPONSE
           /\ unpack_from fmt_I (_data_buffer self') 8 = Ok part
           /\ part <> 0
           /\ ((8 <= length (Packet.data p))%nat ->
               unpack_from fmt_I (Packet.data p) 4 = Ok part))
  /\ (forall (fuel : nat) (self self1 : BNO080.t) (p : Packet.t) (part : Z),
        _wait_for_packet_type self_initialize _BNO_CHANNEL_CONTROL
          (Some _SHTP_REPORT_PRODUCT_ID_RESPONSE) default_timeout self
        = (Ok p, self1) ->
        (14 <= length (Packet.data p))%nat ->
        unpack_from fmt_I (Packet.data p) 4 = Ok part ->
        check_id_loop self_initialize (S fuel) self
        = if part =? 0 then check_id_loop self_initialize fuel self1
          else (Ok true, set_id_read true self1))
  /\ (forall (fuel : nat) (self : BNO080.t),
        _id_read self = true ->
        _check_id self_initialize fuel self = (Ok true, self)).
Proof.
  split; [|split].
  - intros fuel self self' b Hunread Hrun.
    unfold _check_id, bind, gets in Hrun. rewrite Hunread in Hrun.
    destruct (_send_packet _ _ self) as [[u|e|] self0]; try discriminate Hrun.
    apply check_id_loop_returns in Hrun. exact Hrun.
  - intros fuel self self1 p part Hwait Hlong Hpart.
    rewrite check_id_loop_step, Hwait.
    apply wait_for_packet_type_buffer in Hwait as (Hwanted & _ & Hdata & Hlen).
    apply wanted_true in Hwanted as [_ Hreport].
    rewrite (parse_sensor_id_run self1 p part);
      [|assumption|assumption|assumption
       |apply Hreport; [reflexivity | discriminate]|assumption].
    simpl. destruct (part =? 0); reflexivity.
  - intros fuel self Hread. unfold _check_id, bind, gets. rewrite Hread.
    reflexivity.
Qed.


(** The id request answered with part number 0, then with 0x0098A498: the
    first response is passed over, the second one ends the query. *)
Lemma check_id_part_number_witness :
  let self := fresh zero_then_part in
  let asked := snd (_send_packet _BNO_CHANNEL_CONTROL
                      [byte_of_Z _SHTP_REPORT_PRODUCT_ID_REQUEST; byte_of_Z 0]
                      self) in
  let wait := _wait_for_packet_type (initialize 0) _BNO_CHANNEL_CONTROL
                (Some _SHTP_REPORT_PRODUCT_ID_RESPONSE) default_timeout in
  let out := _check_id (initialize 0) 2 self in
  check_id_loop (initialize 0) 2 asked
  = (if 0 =? 0 then check_id_loop (initialize 0) 1 (snd (wait asked))
     else (Ok true, set_id_read true (snd (wait asked))))
  /\ fst out = Ok true
  /\ _id_read (snd out) = true
  /\ exists (p : Packet.t) (part : Z),
       Packet.init (_data_buffer (snd out)) = Ok p
       /\ Packet.channel_number p = _BNO_CHANNEL_CONTROL
       /\ Packet.report_id p = Ok _SHTP_REPORT_PRODUCT_ID_RESPONSE
       /\ unpack_from fmt_I (_data_buffer (snd out)) 8 = Ok part
       /\ part <> 0
       /\ ((8 <= length (Packet.data p))%nat ->
           unpack_from fmt_I (Packet.data p) 4 = Ok part).
Proof.
  cbv zeta.
  destruct (check_id_part_number (initialize 0)) as (Honly & Hpass & _).
  set (asked := snd (_send_packet _BNO_CHANNEL_CONTROL
                       [byte_of_Z _SHTP_REPORT_PRODUCT_ID_REQUEST; byte_of_Z 0]
                       (fresh zero_then_part))).
  set (wait := _wait_for_packet_type (initialize 0) _BNO_CHANNEL_CONTROL
                 (Some _SHTP_REPORT_PRODUCT_ID_RESPONSE) default_timeout).
  split.
  - refine (Hpass 1%nat asked (snd (wait asked)) (packet_of (wait asked)) 0
              _ _ _).
    + vm_compute. reflexivity.
    + vm_compute. lia.
    + vm_compute. reflexivity.
  - destruct (Honly 2%nat (fresh zero_then_part)
                (snd (_check_id (initialize 0) 2 (fresh zero_then_part))) true)
      as (_ & Hset & Hlast).
    + reflexivity.
    + vm_compute. reflexivity.
    + split; [vm_compute; reflexivity|]. split; [exact Hset | exact Hlast].
Defined.

(** A product-id response without a part number ends the query.  A
    get-feature response arrives first and is dispatched; then a product-id
    response of one payload byte, 0xF8 alone: it has no field at payload
    offset 4, [_parse_sensor_id] reads at offset 8 of the buffer the bytes
    00 50 C3 00 of the get-feature response, and [_check_id] returns [True]
    with [_id_read] set. *)
Lemma check_id_accepts_stale_part_number :
  let self := fresh stale_then_short in
  let out := _check_id (initialize 0) 1 self in
  fst out = Ok true
  /\ _id_read self = false
  /\ _id_read (snd out) = true
  /\ (exists p : Packet.t,
        Packet.init (_data_buffer (snd out)) = Ok p
        /\ Packet.channel_number p = _BNO_CHANNEL_CONTROL
        /\ Packet.data p = [byte_of_Z _SHTP_REPORT_PRODUCT_ID_RESPONSE]
        /\ unpack_from fmt_I (Packet.data p) 4 = Raise StructError)
  /\ unpack_from fmt_I (_data_buffer (snd out)) 8 = Ok 12800000
  /\ inbound (world (snd out)) = [].
Proof.
  cbv zeta. split; [vm_compute; reflexivity|]. split; [reflexivity|].
  split; [vm_compute; reflexivity|].
  split; [|split; vm_compute; reflexivity].
  eexists. split; [vm_compute; reflexivity|].
  split; [reflexivity|]. split; vm_compute; reflexivity.
Qed.

(** ** The clock, and the fuel of [_wait_for_packet_type] *)

Lemma monotone_ret {A : Type} (a : A) : monotone (ret a).
Proof. intros self. simpl. lia. Qed.

Lemma monotone_raise {A : Type} (e : Exn) : monotone (@raise A e).
Proof. intros self. simpl. lia. Qed.

Lemma monotone_out_of_fuel {A : Type} : monotone (@out_of_fuel A).
Proof. intros self. simpl. lia. Qed.

Lemma monotone_lift {A : Type} (r : Result A) : monotone (lift r).
Proof. intros self. simpl. lia. Qed.

Lemma monotone_gets {A : Type} (f : BNO080.t -> A) : monotone (gets f).
Proof. intros self. simpl. lia. Qed.

Lemma monotone_modify (f : BNO080.t -> BNO080.t) :
  (forall self, now (world self) <= now (world (f self))) ->
  monotone (modify f).
Proof. intros Hf self. simpl. apply Hf. Qed.

Lemma monotone_bind {A B : Type} (c : M A) (k : A -> M B) :
  monotone c -> (forall a, monotone (k a)) -> monotone (bind c k).
Proof.
  intros Hc Hk self. unfold bind. specialize (Hc self).
  destruct (c self) as [[a|e|] self1]; simpl in *; try exact Hc.
  specialize (Hk a self1). lia.
Qed.

Ltac monotone_auto :=
  repeat
    lazymatch goal with
    | |- monotone (bind _ _) => apply monotone_bind; [|intros ?]
    | |- monotone (ret _) => apply monotone_ret
    | |- monotone (raise _) => apply monotone_raise
    | |- monotone out_of_fuel => apply monotone_out_of_fuel
    | |- monotone (lift _) => apply monotone_lift
    | |- monotone (gets _) => apply monotone_gets
    | |- monotone (modify _) => apply monotone_modify; intros ?; simpl; lia
    | |- monotone (if ?c then _ else _) => destruct c
    | |- monotone (match ?c with _ => _ end) => destruct c
    | |- monotone _ => solve [auto]
    end.

Lemma monotone_data_ready : monotone _data_ready.
Proof.
  intros self.
  destruct (data_ready_spec self) as (ready & w' & Hready & Hnow & _).
  rewrite Hready. simpl. lia.
Qed.

Lemma monotone_read_packet : monotone _read_packet.
Proof. intros self. destruct (read_packet_clock self) as [_ Hnow]. lia. Qed.

Lemma monotone_wait_for_packet (timeout : Z) : monotone (_wait_for_packet timeout).
Proof.
  intros self. destruct (wait_for_packet_clock timeout self) as [_ Hnow]. lia.
Qed.

Lemma monotone_send_packet (channel : Z) (data : list byte) :
  monotone (_send_packet channel data).
Proof.
  intros self. unfold _send_packet.
  destruct (py_index _ _); simpl; lia.
Qed.

Lemma monotone_reset : monotone reset.
Proof. unfold reset. monotone_auto. Qed.

Lemma monotone_sleep (seconds : Z) : 0 <= seconds -> monotone (sleep seconds).
Proof. intros Hs. unfold sleep. apply monotone_modify. intros self. simpl. lia. Qed.

Lemma monotone_parse_sensor_id : monotone _parse_sensor_id.
Proof. intros self. rewrite parse_sensor_id_pure. lia. Qed.

Section Monotone.

Variable self_initialize : M unit.
Hypothesis monotone_self_initialize : monotone self_initialize.

Lemma monotone_handle_packet (p : Packet.t) :
  monotone (_handle_packet self_initialize p).
Proof.
  unfold _handle_packet, _store_sensor_report.
  pose proof (monotone_sleep 1 ltac:(lia)).
  monotone_auto.
Qed.

Lemma monotone_wait_for_packet_type_loop (channel : Z) (report_id : option Z)
    (timeout start : Z) (fuel : nat) :
  monotone
    (wait_for_packet_type_loop self_initialize fuel channel report_id timeout
       start).
Proof.
  induction fuel as [|fuel IH]; simpl; [apply monotone_out_of_fuel|].
  unfold _elapsed, monotonic.
  pose proof (monotone_wait_for_packet _PACKET_READ_TIMEOUT).
  pose proof monotone_handle_packet.
  monotone_auto.
Qed.

Lemma monotone_wait_for_packet_type (channel : Z) (report_id : option Z)
    (timeout : Z) :
  monotone (_wait_for_packet_type self_initialize channel report_id timeout).
Proof.
  unfold _wait_for_packet_type, monotonic.
  apply monotone_bind; [apply monotone_gets|]. intros start.
  apply monotone_wait_for_packet_type_loop.
Qed.

Lemma monotone_check_id_loop (fuel : nat) :
  monotone (check_id_loop self_initialize fuel).
Proof.
  induction fuel as [|fuel IH]; simpl; [apply monotone_out_of_fuel|].
  pose proof monotone_wait_for_packet_type.
  pose proof monotone_parse_sensor_id.
  monotone_auto.
Qed.

Lemma monotone_check_id (fuel : nat) : monotone (_check_id self_initialize fuel).
Proof.
  unfold _check_id.
  pose proof monotone_send_packet. pose proof monotone_check_id_loop.
  monotone_auto.
Qed.

Lemma monotone_enable_feature_loop (fuel : nat) (feature_id : Z) :
  monotone (enable_feature_loop self_initialize fuel feature_id).
Proof.
  induction fuel as [|fuel IH]; simpl; [apply monotone_out_of_fuel|].
  pose proof monotone_wait_for_packet_type.
  monotone_auto.
Qed.

Lemma monotone_enable_feature (fuel : nat) (feature_id : Z) :
  monotone (_enable_feature self_initialize fuel feature_id).
Proof.
  unfold _enable_feature.
  pose proof monotone_send_packet. pose proof monotone_enable_feature_loop.
  monotone_auto.
Qed.

Lemma monotone_initialize_body (fuel : nat) :
  monotone (initialize_body self_initialize fuel).
Proof.
  unfold initialize_body.
  pose proof monotone_reset. pose proof monotone_check_id.
  pose proof monotone_enable_feature.
  monotone_auto.
Qed.

(** The bound [S (Z.to_nat timeout)] that [_wait_for_packet_type] gives its
    loop is never what ends a run: every pass moves the clock by a
    millisecond or more, so two bounds that both exceed the time left to the
    deadline give the same run. *)
Lemma wait_for_packet_type_loop_fuel (channel : Z) (report_id : option Z)
    (timeout start : Z) (fuel1 : nat) :
  forall (fuel2 : nat) (self : BNO080.t),
    (Z.to_nat (start + timeout - now (world self)) < fuel1)%nat ->
    (Z.to_nat (start + timeout - now (world self)) < fuel2)%nat ->
    wait_for_packet_type_loop self_initialize fuel1 channel report_id timeout
      start self
    = wait_for_packet_type_loop self_initialize fuel2 channel report_id timeout
        start self.
Proof.
  induction fuel1 as [|fuel1 IH]; intros fuel2 self H1 H2; [lia|].
  destruct fuel2 as [|fuel2]; [lia|].
  rewrite !wait_for_packet_type_loop_step.
  destruct (Z.ltb_spec (now (world self) - start) timeout) as [Hlt|Hge];
    [|reflexivity].
  destruct (_wait_for_packet _PACKET_READ_TIMEOUT self) as [[p|e|] self1]
    eqn:Hpoll; try reflexivity.
  destruct (wanted channel report_id p) as [[|]|e|]; try reflexivity.
  pose proof (monotone_handle_packet p self1) as Hhandle.
  destruct (_handle_packet self_initialize p self1) as [[u|e|] self2];
    try reflexivity.
  simpl in Hhandle.
  apply wait_for_packet_inv in Hpoll as (w0 & Hread & Hnow & _).
  pose proof (monotone_read_packet (set_world w0 self)) as Hclock.
  rewrite Hread in Hclock. simpl in Hclock.
  apply IH; lia.
Qed.

End Monotone.

(** [initialize], with the recursion tied, never sets the clock back. *)
Lemma monotone_initialize (fuel : nat) : monotone (initialize fuel).
Proof.
  induction fuel as [|fuel IH]; simpl; [apply monotone_out_of_fuel|].
  apply monotone_initialize_body. exact IH.
Qed.

(** The driver as it runs: [_wait_for_packet_type] with [initialize] tied
    gives the same run for every bound of its loop that exceeds the time
    left. *)
Lemma wait_for_packet_type_fuel (depth : nat) (channel : Z)
    (report_id : option Z) (timeout : Z) (self : BNO080.t) (fuel : nat) :
  (Z.to_nat timeout < fuel)%nat ->
  _wait_for_packet_type (initialize depth) channel report_id timeout self
  = wait_for_packet_type_loop (initialize depth) fuel channel report_id timeout
      (now (world self)) self.
Proof.
  intros Hfuel. rewrite wait_for_packet_type_unfold.
  apply wait_for_packet_type_loop_fuel; [apply monotone_initialize|lia|lia].
Qed.

(** * Further properties of the driver *)

(** ** The frame codec *)

(** Masking bit 15 of a 16-bit word keeps its low 15 bits. *)
Lemma mask_bit15 (x : Z) :
  0 <= x < 65536 -> Z.land x (Z.lnot 0x8000) = x mod 32768.
Proof.
  intros Hx. change 0x8000 with (2 ^ 15). change 32768 with (2 ^ 15).
  apply Z.bits_inj'. intros n Hn.
  rewrite Z.land_spec, Z.lnot_spec, Z.pow2_bits_eqb by lia.
  destruct (Z.ltb_spec n 15) as [Hlow|Hhigh].
  - rewrite Z.mod_pow2_bits_low by lia.
    destruct (Z.eqb_spec 15 n); [lia|]. apply andb_true_r.
  - rewrite Z.mod_pow2_bits_high by lia.
    destruct (Z.eqb_spec 15 n) as [Heq|Hne]; [apply andb_false_r|].
    assert (Hbit : Z.testbit x n = false).
    { destruct (Z.eq_dec x 0) as [->|Hnz]; [apply Z.bits_0|].
      apply Z.bits_above_log2; [lia|].
      assert (Z.log2 x < 16) by (apply Z.log2_lt_pow2; lia). lia. }
    rewrite Hbit. reflexivity.
Qed.

Lemma header_from_buffer_short (buf : list byte) :
  (length buf < 4)%nat -> Packet.header_from_buffer buf = Raise StructError.
Proof.
  intros Hlen. unfold Packet.header_from_buffer.
  destruct (unpack_from_outcome fmt_H buf 0) as [[v0 H0]|H0]; rewrite H0; simpl;
    [|reflexivity].
  destruct (unpack_from_outcome fmt_B buf 2) as [[v2 H2]|H2]; rewrite H2; simpl;
    [|reflexivity].
  rewrite unpack_from_short by (simpl; lia). reflexivity.
Qed.

Lemma list_four (buf : list byte) :
  (4 <= length buf)%nat ->
  buf = nth 0 buf x00 :: nth 1 buf x00 :: nth 2 buf x00 :: nth 3 buf x00
        :: drop 4 buf.
Proof.
  intros Hlen. destruct buf as [|b0 [|b1 [|b2 [|b3 rest]]]]; simpl in Hlen; try lia.
  reflexivity.
Qed.

Lemma header_from_buffer_long (buf : list byte) :
  (4 <= length buf)%nat ->
  exists h,
    Packet.header_from_buffer buf = Ok h
    /\ packet_byte_count h
       = (byte_val (nth 0 buf x00) + 256 * byte_val (nth 1 buf x00)) mod 32768
    /\ channel_number h = byte_val (nth 2 buf x00)
    /\ sequence_number h = byte_val (nth 3 buf x00)
    /\ data_length h = Z.max 0 (packet_byte_count h - 4)
    /\ 0 <= packet_byte_count h < 32768
    /\ 0 <= data_length h <= 32763.
Proof.
  intros Hlen.
  destruct buf as [|b0 [|b1 [|b2 [|b3 rest]]]]; simpl in Hlen; try lia.
  rewrite header_from_buffer_cons. cbv zeta. eexists. split; [reflexivity|].
  cbn [nth packet_byte_count channel_number sequence_number data_length].
  pose proof (byte_val_range b0) as H0.
  pose proof (byte_val_range b1) as H1.
  rewrite mask_bit15 by lia.
  pose proof (Z.mod_pos_bound (byte_val b0 + 256 * byte_val b1) 32768
                ltac:(lia)) as Hmod.
  repeat split; try reflexivity; lia.
Qed.

Lemma header_from_buffer_ok (buf : list byte) (h : PacketHeader) :
  Packet.header_from_buffer buf = Ok h -> (4 <= length buf)%nat.
Proof.
  intros Hh. destruct (Nat.lt_ge_cases (length buf) 4) as [Hshort|Hlong];
    [|exact Hlong].
  rewrite header_from_buffer_short in Hh by exact Hshort. discriminate Hh.
Qed.

(** X1: [header_from_buffer] raises [struct.error] on a buffer of fewer than
    four bytes; on a longer one it returns the header whose byte count is the
    little-endian word of bytes 0 and 1 with bit 15 dropped (so below
    0x8000), whose channel and sequence are bytes 2 and 3, and whose data
    length is the byte count less 4, never below 0. *)
Theorem header_from_buffer_fields (buf : list byte) :
  ((length buf < 4)%nat ->
   Packet.header_from_buffer buf = Raise StructError)
  /\ ((4 <= length buf)%nat ->
      exists h,
        Packet.header_from_buffer buf = Ok h
        /\ packet_byte_count h
           = (byte_val (nth 0 buf x00) + 256 * byte_val (nth 1 buf x00))
             mod 32768
        /\ channel_number h = byte_val (nth 2 buf x00)
        /\ sequence_number h = byte_val (nth 3 buf x00)
        /\ data_length h = Z.max 0 (packet_byte_count h - 4)
        /\ 0 <= packet_byte_count h < 32768
        /\ 0 <= data_length h <= 32763).
Proof.
  split; [apply header_from_buffer_short | apply header_from_buffer_long].
Qed.

(** A header with the continuation bit set, and a buffer that is too short. *)
Lemma header_from_buffer_fields_witness :
  Packet.header_from_buffer (map byte_of_Z [0x14; 0x80; 0x02]) = Raise StructError
  /\ exists h,
       Packet.header_from_buffer (map byte_of_Z [0x14; 0x80; 0x02; 0x01; 0xF1])
       = Ok h
       /\ packet_byte_count h = (0x14 + 256 * 0x80) mod 32768
       /\ channel_number h = 2
       /\ sequence_number h = 1
       /\ data_length h = Z.max 0 (packet_byte_count h - 4)
       /\ 0 <= packet_byte_count h < 32768
       /\ 0 <= data_length h <= 32763.
Proof.
  split.
  - apply (header_from_buffer_fields (map byte_of_Z [0x14; 0x80; 0x02])).
    simpl. lia.
  - apply (header_from_buffer_fields
             (map byte_of_Z [0x14; 0x80; 0x02; 0x01; 0xF1])).
    simpl. lia.
Defined.

(** X2: [Packet.__init__] fails, with [struct.error], exactly on buffers of
    fewer than four bytes.  The payload of the packet it builds is the slice
    of the buffer that starts at byte 4 and has [data_length] bytes, cut
    where the buffer ends; a header that announces four bytes or fewer gives
    an empty payload, on which [report_id] raises [IndexError]. *)
Theorem packet_init_payload (buf : list byte) :
  ((length buf < 4)%nat -> Packet.init buf = Raise StructError)
  /\ (forall p : Packet.t,
        Packet.init buf = Ok p ->
        (4 <= length buf)%nat
        /\ Packet.header_from_buffer buf = Ok (Packet.header p)
        /\ Packet.data p
           = take (Z.to_nat (data_length (Packet.header p))) (drop 4 buf)
        /\ length (Packet.data p)
           = Nat.min (Z.to_nat (data_length (Packet.header p))) (length buf - 4)
        /\ (packet_byte_count (Packet.header p) <= 4 ->
            Packet.data p = [] /\ Packet.report_id p = Raise IndexError)).
Proof.
  split.
  - intros Hshort. unfold Packet.init.
    rewrite header_from_buffer_short by exact Hshort. reflexivity.
  - intros p Hinit.
    assert (Hlen : (4 <= length buf)%nat).
    { unfold Packet.init in Hinit.
      destruct (Packet.header_from_buffer buf) as [h|e|] eqn:Hh;
        try discriminate Hinit.
      exact (header_from_buffer_ok buf h Hh). }
    split; [exact Hlen|].
    destruct (header_from_buffer_long buf Hlen)
      as (h & Hh & _ & _ & _ & Hdl & _ & _).
    destruct buf as [|b0 [|b1 [|b2 [|b3 rest]]]]; simpl in Hlen; try lia.
    destruct (packet_init_cons b0 b1 b2 b3 rest)
      as (h' & Hh' & _ & _ & _ & Hinit').
    assert (h' = h) by congruence. subst h'.
    rewrite Hinit' in Hinit. inversion Hinit; subst p. simpl.
    split; [exact Hh|]. split; [reflexivity|].
    split; [rewrite length_take; lia|].
    intros Hcount.
    assert (Hzero : Z.to_nat (data_length h) = 0%nat) by lia.
    rewrite Hzero. split; reflexivity.
Qed.

(** A frame whose header announces 20 bytes in a buffer that holds 9, and a
    buffer of three bytes. *)
Lemma packet_init_payload_witness :
  Packet.init (map byte_of_Z [0x14; 0x00; 0x02]) = Raise StructError
  /\ exists p,
       Packet.init (map byte_of_Z [0x14; 0x00; 0x02; 0x01; 0xF1; 0; 0x84; 0; 0])
       = Ok p
       /\ data_length (Packet.header p) = 16
       /\ length (Packet.data p) = 5%nat.
Proof.
  split.
  - apply (packet_init_payload (map byte_of_Z [0x14; 0x00; 0x02])). simpl. lia.
  - destruct (Packet.init
                (map byte_of_Z [0x14; 0x00; 0x02; 0x01; 0xF1; 0; 0x84; 0; 0]))
      as [p|e|] eqn:Hinit; try (vm_compute in Hinit; discriminate Hinit).
    exists p. split; [reflexivity|].
    destruct (proj2 (packet_init_payload _) p Hinit) as (_ & _ & _ & Hlen & _).
    vm_compute in Hinit. inversion Hinit; subst p. split; reflexivity.
Defined.

(** X3: on a header that [header_from_buffer] has read, [is_error] is true
    exactly when the channel byte is above 5: the byte count has lost its
    bit 15, so it is never 0xFFFF and the second test of [is_error] never
    fires. *)
Theorem is_error_of_read_header (buf : list byte) (h : PacketHeader) :
  Packet.header_from_buffer buf = Ok h ->
  packet_byte_count h <> 0xFFFF
  /\ (Packet.is_error h = true <-> 5 < channel_number h)
  /\ (Packet.is_error h = true <-> 5 < byte_val (nth 2 buf x00)).
Proof.
  intros Hh. pose proof (header_from_buffer_ok buf h Hh) as Hlen.
  destruct (header_from_buffer_long buf Hlen)
    as (h' & Hh' & _ & Hchannel & _ & _ & Hcount & _).
  assert (h' = h) by congruence. subst h'.
  assert (Hne : packet_byte_count h <> 0xFFFF) by lia.
  split; [exact Hne|].
  assert (Herr : Packet.is_error h = true <-> 5 < channel_number h).
  { unfold Packet.is_error.
    destruct (Z.ltb_spec 5 (channel_number h)) as [Hgt|Hle].
    - split; auto.
    - destruct (Z.eqb_spec (packet_byte_count h) 0xFFFF) as [Heq|_];
        [contradiction|].
      simpl. split; [discriminate | lia]. }
  split; [exact Herr|]. rewrite <- Hchannel. exact Herr.
Qed.

(** The frame FF FF 02 FF: every bit of the length word set and sequence
    number 0xFF, on channel 2, is not an error once it is read. *)
Lemma is_error_of_read_header_witness :
  let buf := map byte_of_Z [0xFF; 0xFF; 0x02; 0xFF] in
  let h := mkPacketHeader 2 0xFF 0x7FFB 0x7FFF in
  Packet.is_error h = false
  /\ packet_byte_count h <> 0xFFFF
  /\ (Packet.is_error h = true <-> 5 < channel_number h)
  /\ (Packet.is_error h = true <-> 5 < byte_val (nth 2 buf x00)).
Proof.
  cbv zeta. split; [reflexivity|].
  apply (is_error_of_read_header (map byte_of_Z [0xFF; 0xFF; 0x02; 0xFF])).
  reflexivity.
Defined.

(** ** The report decoder: failures *)

Lemma unpack_from_ok_length (f : Format) (buf : list byte) (offset : nat) (v : Z) :
  unpack_from f buf offset = Ok v -> (offset + fmt_size f <= length buf)%nat.
Proof.
  intros Hok.
  destruct (Nat.lt_ge_cases (length buf) (offset + fmt_size f)) as [Hshort|Hlong];
    [|exact Hlong].
  rewrite unpack_from_short in Hok by exact Hshort. discriminate Hok.
Qed.

Lemma scale_fields_ok (payload : list byte) (scalar : float) (idxs : list Z) :
  forall (acc values : list float),
    scale_fields payload scalar idxs acc = Ok values ->
    length values = (length acc + length idxs)%nat
    /\ forall i, In i idxs -> (Z.to_nat (9 + i * 2) + 2 <= length payload)%nat.
Proof.
  induction idxs as [|i idxs IH]; intros acc values Hrun; simpl in Hrun.
  - inversion Hrun; subst. split; [simpl; lia | intros i []].
  - destruct (unpack_from fmt_h payload (Z.to_nat (9 + i * 2))) as [raw|e|]
      eqn:Hraw; try discriminate Hrun.
    simpl in Hrun. apply IH in Hrun as [Hlen Hall].
    rewrite length_app in Hlen. simpl in *. split; [lia|].
    intros j [<-|Hj]; [|apply Hall; exact Hj].
    apply unpack_from_ok_length in Hraw. simpl in Hraw. exact Hraw.
Qed.

(** X4: the outcomes of [_parse_report_data].  It raises [IndexError] on an
    empty payload, and on a payload of fewer than 6 bytes that starts with
    the base-timestamp marker; [KeyError] with the resolved id when that id
    is not the accelerometer's; [struct.error] when the id is the
    accelerometer's and the payload has fewer than 15 bytes.  It returns a
    tuple exactly when the payload has 15 bytes or more and resolves to the
    accelerometer, and the tuple then has three values: never a shorter
    one. *)
Theorem parse_report_data_outcomes (packet : Packet.t) :
  (Packet.data packet = [] -> _parse_report_data packet = Raise IndexError)
  /\ (Packet.report_id packet = Ok _BNO_CMD_BASE_TIMESTAMP ->
      (length (Packet.data packet) < 6)%nat ->
      _parse_report_data packet = Raise IndexError)
  /\ (forall rid,
        resolve_report_id packet = Ok rid ->
        rid <> _BNO_REPORT_ACCELEROMETER ->
        _parse_report_data packet = Raise (KeyError rid))
  /\ (resolve_report_id packet = Ok _BNO_REPORT_ACCELEROMETER ->
      (length (Packet.data packet) < 15)%nat ->
      _parse_report_data packet = Raise StructError)
  /\ (forall values,
        _parse_report_data packet = Ok values ->
        (15 <= length (Packet.data packet))%nat
        /\ resolved_id (Packet.data packet) = _BNO_REPORT_ACCELEROMETER
        /\ length values = 3%nat)
  /\ ((15 <= length (Packet.data packet))%nat ->
      resolved_id (Packet.data packet) = _BNO_REPORT_ACCELEROMETER ->
      exists values, _parse_report_data packet = Ok values).
Proof.
  assert (Hok : forall values,
             _parse_report_data packet = Ok values ->
             resolve_report_id packet = Ok _BNO_REPORT_ACCELEROMETER
             /\ (15 <= length (Packet.data packet))%nat
             /\ length values = 3%nat).
  { intros values Hrun. unfold _parse_report_data in Hrun.
    destruct (resolve_report_id packet) as [rid|e|] eqn:Hrid;
      try discriminate Hrun.
    cbv beta iota delta [rbind] in Hrun. unfold dict_getitem in Hrun.
    destruct (_ENABLED_SENSOR_REPORTS !! rid) as [[scalar count]|] eqn:Hget;
      try discriminate Hrun.
    apply enabled_lookup in Hget as (-> & -> & ->).
    apply scale_fields_ok in Hrun as [Hlen Hall].
    split; [reflexivity|]. split; [|exact Hlen].
    specialize (Hall 2 ltac:(simpl; auto)). simpl in Hall. lia. }
  split; [|split; [|split; [|split; [|split]]]].
  - intros Hempty. unfold _parse_report_data, resolve_report_id,
      Packet.report_id. rewrite Hempty. reflexivity.
  - intros Hmarker Hshort. unfold _parse_report_data, resolve_report_id.
    rewrite Hmarker. simpl. unfold getitem.
    rewrite (proj2 (lookup_ge_None (Packet.data packet) 5)) by lia. reflexivity.
  - intros rid Hrid Hne. apply parse_report_data_KeyError.
    split; [exact Hrid|]. apply enabled_lookup_None. exact Hne.
  - intros Hrid Hshort.
    assert (Hfields : _parse_report_data packet
                      = scale_fields (Packet.data packet) _ACCEL_SCALAR
                          (py_range 3) []).
    { unfold _parse_report_data. rewrite Hrid. reflexivity. }
    destruct (scale_fields_outcome (Packet.data packet) _ACCEL_SCALAR
                (py_range 3) []) as [[values Hv]|Hv].
    + rewrite <- Hfields in Hv. destruct (Hok values Hv) as (_ & Hlen & _). lia.
    + rewrite Hfields. exact Hv.
  - intros values Hrun. destruct (Hok values Hrun) as (Hrid & Hlen & Hvalues).
    split; [exact Hlen|]. split; [|exact Hvalues].
    rewrite resolve_report_id_spec in Hrid by lia. congruence.
  - intros Hlen Hrid.
    assert (Hres : resolve_report_id packet = Ok _BNO_REPORT_ACCELEROMETER)
      by (rewrite resolve_report_id_spec by lia; congruence).
    assert (Hfields : _parse_report_data packet
                      = scale_fields (Packet.data packet) _ACCEL_SCALAR
                          (map Z.of_nat (seq 0 3)) []).
    { unfold _parse_report_data. rewrite Hres. reflexivity. }
    rewrite Hfields, scale_fields_spec by lia. eexists. reflexivity.
Qed.

(** An accelerometer report cut after 14 payload bytes, and an empty
    payload. *)
Lemma parse_report_data_outcomes_witness :
  _parse_report_data (Packet.mk (mkPacketHeader 3 0 0 4) []) = Raise IndexError
  /\ _parse_report_data
       (Packet.mk (mkPacketHeader 3 0 14 18)
          (map byte_of_Z [1; 0; 0; 0; 0; 0; 0; 0; 0; 0xA0; 0x0F; 0; 0; 0]))
     = Raise StructError
  /\ _parse_report_data
       (Packet.mk (mkPacketHeader 3 0 5 9) (map byte_of_Z [0xFB; 0; 0; 0; 0]))
     = Raise IndexError.
Proof.
  split; [|split].
  - destruct (parse_report_data_outcomes (Packet.mk (mkPacketHeader 3 0 0 4) []))
      as (Hempty & _).
    apply Hempty. reflexivity.
  - destruct (parse_report_data_outcomes
                (Packet.mk (mkPacketHeader 3 0 14 18)
                   (map byte_of_Z
                      [1; 0; 0; 0; 0; 0; 0; 0; 0; 0xA0; 0x0F; 0; 0; 0])))
      as (_ & _ & _ & Hshort & _).
    apply Hshort; [reflexivity | simpl; lia].
  - destruct (parse_report_data_outcomes
                (Packet.mk (mkPacketHeader 3 0 5 9)
                   (map byte_of_Z [0xFB; 0; 0; 0; 0])))
      as (_ & Hmarker & _).
    apply Hmarker; [reflexivity | simpl; lia].
Defined.

(** ** The sequence tracker: bounds and overwriting *)

Lemma setitem_out_of_range {A : Type} (l : list A) (i : Z) (x : A) :
  Z.of_nat (length l) <= i -> setitem l i x = Raise IndexError.
Proof.
  intros Hi. unfold setitem, py_index.
  assert (H1 : (0 <=? i) && (i <? Z.of_nat (length l)) = false).
  { apply andb_false_iff. right. apply Z.ltb_ge. exact Hi. }
  assert (H2 : (- Z.of_nat (length l) <=? i) && (i <? 0) = false).
  { apply andb_false_iff. right. apply Z.ltb_ge. lia. }
  rewrite H1, H2. reflexivity.
Qed.

(** X5: on a tracker of six entries, [_update_sequence_number] succeeds for
    a packet on a channel 0 to 5: the entry of the channel becomes the
    sequence number of the packet, whatever it held, and nothing else in the
    instance changes, so of two packets on one channel the later one alone
    decides the entry.  For a channel above 5 it raises [IndexError] and the
    instance stays as it was. *)
Theorem update_sequence_number_bounds (p : Packet.t) (self : BNO080.t) :
  length (_sequence_number self) = 6%nat ->
  (0 <= Packet.channel_number p <= 5 ->
   exists self',
     _update_sequence_number p self = (Ok tt, self')
     /\ _sequence_number self' !! Z.to_nat (Packet.channel_number p)
        = Some (sequence_number (Packet.header p))
     /\ (forall c : nat,
           c <> Z.to_nat (Packet.channel_number p) ->
           _sequence_number self' !! c = _sequence_number self !! c)
     /\ length (_sequence_number self') = 6%nat
     /\ _data_buffer self' = _data_buffer self
     /\ _wait_for_initialize self' = _wait_for_initialize self
     /\ _init_complete self' = _init_complete self
     /\ _id_read self' = _id_read self
     /\ _readings self' = _readings self
     /\ world self' = world self
     /\ forall q : Packet.t,
          Packet.channel_number q = Packet.channel_number p ->
          _sequence_number (snd (_update_sequence_number q self'))
          = _sequence_number (snd (_update_sequence_number q self)))
  /\ (5 < Packet.channel_number p ->
      _update_sequence_number p self = (Raise IndexError, self)).
Proof.
  intros Hlen. split.
  - intros Hchannel.
    rewrite update_sequence_number_run, setitem_in_range by lia.
    eexists. split; [reflexivity|]. simpl.
    split; [apply list_lookup_insert_eq; lia|].
    split; [intros c Hc; apply list_lookup_insert_ne; congruence|].
    split; [rewrite length_insert; exact Hlen|].
    repeat (split; [reflexivity|]).
    intros q Hq. rewrite !update_sequence_number_run, Hq. simpl.
    set (tracker := <[_ := _]> (_sequence_number self)).
    assert (Htracker : length tracker = 6%nat)
      by (unfold tracker; rewrite length_insert; exact Hlen).
    rewrite (setitem_in_range tracker) by lia.
    rewrite (setitem_in_range (_sequence_number self)) by lia. simpl.
    apply list_insert_insert_eq.
  - intros Hchannel.
    rewrite update_sequence_number_run, setitem_out_of_range by lia.
    reflexivity.
Qed.

(** A packet on channel 3 with sequence number 9 met by a fresh driver, and
    a packet that claims channel 6. *)
Lemma update_sequence_number_bounds_witness :
  let self := fresh (silent 0) in
  let p := Packet.mk (mkPacketHeader 3 9 0 4) [] in
  let bad := Packet.mk (mkPacketHeader 6 9 0 4) [] in
  (exists self',
     _update_sequence_number p self = (Ok tt, self')
     /\ _sequence_number self' !! 3%nat = Some 9)
  /\ _update_sequence_number bad self = (Raise IndexError, self).
Proof.
  cbv zeta.
  destruct (update_sequence_number_bounds
              (Packet.mk (mkPacketHeader 3 9 0 4) []) (fresh (silent 0))
              eq_refl) as [Hin _].
  destruct (update_sequence_number_bounds
              (Packet.mk (mkPacketHeader 6 9 0 4) []) (fresh (silent 0))
              eq_refl) as [_ Hout].
  split.
  - destruct Hin as (self' & Hrun & Hentry & _);
      [unfold Packet.channel_number; simpl; lia|].
    exists self'. split; [exact Hrun | exact Hentry].
  - apply Hout. unfold Packet.channel_number. simpl. lia.
Defined.

(** ** The dispatch routine: what it leaves alone, and the lifecycle *)

(** X6: unless the packet is a reset packet (channel 1 with first payload
    byte 1), [_handle_packet] changes nothing but the three lifecycle flags,
    whether it returns or raises: the readings, the sequence tracker, the
    receive buffer and the environment are as before. *)
Theorem handle_packet_touches_flags_only (self_initialize : M unit)
    (p : Packet.t) (self : BNO080.t) :
  is_reset_packet p = false ->
  _readings (snd (_handle_packet self_initialize p self)) = _readings self
  /\ _sequence_number (snd (_handle_packet self_initialize p self))
     = _sequence_number self
  /\ _data_buffer (snd (_handle_packet self_initialize p self))
     = _data_buffer self
  /\ world (snd (_handle_packet self_initialize p self)) = world self.
Proof.
  intros Hreset.
  pose proof (handle_packet_frame self_initialize p self Hreset) as Hframe.
  unfold device in Hframe. inversion Hframe as [[Hbuf Hseq Hread Hworld]].
  rewrite Hbuf, Hseq, Hread, Hworld. repeat split; reflexivity.
Qed.

(** An advertisement and an accelerometer report, met by a fresh driver. *)
Lemma handle_packet_touches_flags_only_witness :
  let self := fresh (silent 0) in
  (_readings (snd (_handle_packet (initialize 0) advertisement self))
   = _readings self
   /\ _sequence_number (snd (_handle_packet (initialize 0) advertisement self))
      = _sequence_number self
   /\ _data_buffer (snd (_handle_packet (initialize 0) advertisement self))
      = _data_buffer self
   /\ world (snd (_handle_packet (initialize 0) advertisement self))
      = world self)
  /\ _readings
       (snd (_handle_packet (initialize 0)
               (plain_report _BNO_REPORT_ACCELEROMETER 4000) self))
     = _readings self.
Proof.
  cbv zeta. split.
  - apply (handle_packet_touches_flags_only (initialize 0) advertisement).
    reflexivity.
  - apply (handle_packet_touches_flags_only (initialize 0)
             (plain_report _BNO_REPORT_ACCELEROMETER 4000)).
    reflexivity.
Defined.

(** X7: an advertisement arms exactly one unsolicited-initialize response.
    From any instance, an advertisement (channel 0, 272 payload bytes)
    followed by the response (channel 2, report 0xF1, byte 2 equal to 0x84)
    leaves [_wait_for_initialize] false, [_init_complete] true and
    [_id_read] false; a second response right after it raises the
    protocol error. *)
Theorem advertisement_then_unsolicited_init (self_initialize : M unit)
    (adv resp : Packet.t) (self : BNO080.t) :
  Packet.channel_number adv = _BNO_CHANNEL_SHTP_COMMAND ->
  data_length (Packet.header adv) = 272 ->
  Packet.channel_number resp = _BNO_CHANNEL_CONTROL ->
  Packet.report_id resp = Ok _BNO_CMD_COMMAND_RESPONSE ->
  getitem (Packet.data resp) 2 = Ok 0x84 ->
  exists self1 self2,
    _handle_packet self_initialize adv self = (Ok tt, self1)
    /\ _handle_packet self_initialize resp self1 = (Ok tt, self2)
    /\ _wait_for_initialize self2 = false
    /\ _init_complete self2 = true
    /\ _id_read self2 = false
    /\ _handle_packet self_initialize resp self2 = (Raise ProtocolViolation, self2).
Proof.
  intros Hadv Hlen Hresp Hreport Hbyte.
  unfold _handle_packet. rewrite Hadv, Hlen, Hresp, Hreport, Hbyte.
  run_driver. eexists. eexists. repeat split; reflexivity.
Qed.

(** The advertisement and the response of the source's comments, met by a
    driver that had finished its start-up. *)
Lemma advertisement_then_unsolicited_init_witness :
  let ready :=
    BNO080.mk (replicate 512 x00) [0; 0; 0; 0; 0; 0] false true true ∅
      (silent 0) in
  exists self1 self2,
    _handle_packet (initialize 0) advertisement ready = (Ok tt, self1)
    /\ _handle_packet (initialize 0) unsolicited_init_response self1
       = (Ok tt, self2)
    /\ _wait_for_initialize self2 = false
    /\ _init_complete self2 = true
    /\ _id_read self2 = false
    /\ _handle_packet (initialize 0) unsolicited_init_response self2
       = (Raise ProtocolViolation, self2).
Proof.
  apply (advertisement_then_unsolicited_init (initialize 0) advertisement
           unsolicited_init_response);
    reflexivity.
Defined.

(** ** The feature handshake *)

Lemma byte_val_of_Z (z : Z) : byte_val (byte_of_Z z) = z mod 256.
Proof.
  unfold byte_val, byte_of_Z.
  pose proof (Z.mod_pos_bound z 256 ltac:(lia)) as Hmod.
  destruct (Byte.of_N (Z.to_N (z mod 256))) as [b|] eqn:Hb.
  - apply Byte.to_of_N in Hb. rewrite Hb. lia.
  - apply Byte.of_N_None_iff in Hb. lia.
Qed.

(** X8: for a feature id that fits a byte, [_get_feature_enable_report]
    returns 17 bytes: byte 0 is the set-feature command 0xFD, byte 1 the
    feature id, bytes 5 to 8 read back as the little-endian report interval
    50000, and every other byte is 0.  For any other feature id it raises
    [ValueError]. *)
Theorem get_feature_enable_report_layout (feature_id : Z) :
  (0 <= feature_id < 256 ->
   exists report,
     _get_feature_enable_report feature_id = Ok report
     /\ length report = 17%nat
     /\ getitem report 0 = Ok _BNO_CMD_SET_FEATURE_COMMAND
     /\ getitem report 1 = Ok feature_id
     /\ unpack_from fmt_I report 5 = Ok _DEFAULT_REPORT_INTERVAL
     /\ forall i : nat,
          (i < 17)%nat -> i <> 0%nat -> i <> 1%nat -> i <> 5%nat -> i <> 6%nat ->
          getitem report i = Ok 0)
  /\ (~ 0 <= feature_id < 256 ->
      _get_feature_enable_report feature_id = Raise ValueError).
Proof.
  unfold _get_feature_enable_report. split.
  - intros Hid.
    assert (Hin : (0 <=? feature_id) && (feature_id <? 256) = true).
    { apply andb_true_iff. split; [apply Z.leb_le | apply Z.ltb_lt]; lia. }
    rewrite Hin. eexists. split; [reflexivity|].
    split; [reflexivity|]. split; [reflexivity|].
    split.
    { unfold getitem. simpl. rewrite byte_val_of_Z.
      rewrite Z.mod_small by lia. reflexivity. }
    split; [reflexivity|].
    intros i Hi H0 H1 H5 H6.
    do 17 (destruct i as [|i]; [try contradiction; try reflexivity|]).
    simpl in Hi. lia.
  - intros Hid.
    assert (Hout : (0 <=? feature_id) && (feature_id <? 256) = false).
    { apply andb_false_iff.
      destruct (Z.leb_spec 0 feature_id); [right; apply Z.ltb_ge; lia | left; reflexivity]. }
    rewrite Hout. reflexivity.
Qed.

(** The report for the rotation vector, and a feature id of 256. *)
Lemma get_feature_enable_report_layout_witness :
  (exists report,
     _get_feature_enable_report _BNO_REPORT_ROTATION_VECTOR = Ok report
     /\ length report = 17%nat
     /\ getitem report 0 = Ok _BNO_CMD_SET_FEATURE_COMMAND
     /\ getitem report 1 = Ok _BNO_REPORT_ROTATION_VECTOR
     /\ unpack_from fmt_I report 5 = Ok _DEFAULT_REPORT_INTERVAL
     /\ forall i : nat,
          (i < 17)%nat -> i <> 0%nat -> i <> 1%nat -> i <> 5%nat -> i <> 6%nat ->
          getitem report i = Ok 0)
  /\ _get_feature_enable_report 256 = Raise ValueError.
Proof.
  split.
  - apply (get_feature_enable_report_layout _BNO_REPORT_ROTATION_VECTOR).
    unfold _BNO_REPORT_ROTATION_VECTOR. lia.
  - apply (get_feature_enable_report_layout 256). lia.
Defined.

(** ** The sensor id: what [_parse_sensor_id] returns *)

(** X9: [_parse_sensor_id] never changes the instance.  It raises
    [IndexError] on a buffer of four bytes or fewer; it returns [None] when
    byte 4 of the buffer is not 0xF8; when byte 4 is 0xF8 it raises
    [struct.error] on a buffer of fewer than 18 bytes and otherwise returns
    the 32-bit little-endian word at offset 8 of the buffer. *)
Theorem parse_sensor_id_outcomes (self : BNO080.t) :
  snd (_parse_sensor_id self) = self
  /\ ((length (_data_buffer self) <= 4)%nat ->
      fst (_parse_sensor_id self) = Raise IndexError)
  /\ (forall b4,
        getitem (_data_buffer self) 4 = Ok b4 ->
        b4 <> _SHTP_REPORT_PRODUCT_ID_RESPONSE ->
        fst (_parse_sensor_id self) = Ok None)
  /\ (getitem (_data_buffer self) 4 = Ok _SHTP_REPORT_PRODUCT_ID_RESPONSE ->
      (length (_data_buffer self) < 18)%nat ->
      fst (_parse_sensor_id self) = Raise StructError)
  /\ (getitem (_data_buffer self) 4 = Ok _SHTP_REPORT_PRODUCT_ID_RESPONSE ->
      (18 <= length (_data_buffer self))%nat ->
      exists part,
        fst (_parse_sensor_id self) = Ok (Some part)
        /\ unpack_from fmt_I (_data_buffer self) 8 = Ok part).
Proof.
  split; [apply parse_sensor_id_pure|].
  unfold _parse_sensor_id, bind, gets, lift, ret. simpl.
  change (Z.to_nat (2 + 4)) with 6%nat. change (Z.to_nat (3 + 4)) with 7%nat.
  change (Z.to_nat (12 + 4)) with 16%nat. change (Z.to_nat (4 + 4)) with 8%nat.
  change (Z.to_nat (8 + 4)) with 12%nat.
  split; [|split; [|split]].
  - intros Hlen. unfold getitem.
    rewrite (proj2 (lookup_ge_None (_data_buffer self) 4)) by lia. reflexivity.
  - intros b4 Hb4 Hne. rewrite Hb4.
    destruct (Z.eqb_spec b4 _SHTP_REPORT_PRODUCT_ID_RESPONSE) as [Heq|_];
      [contradiction | reflexivity].
  - intros Hb4 Hlen. rewrite Hb4. simpl.
    destruct (unpack_from_outcome fmt_B (_data_buffer self) 6) as [[v1 H1]|H1];
      rewrite H1; [|reflexivity].
    destruct (unpack_from_outcome fmt_B (_data_buffer self) 7) as [[v2 H2]|H2];
      rewrite H2; [|reflexivity].
    rewrite (unpack_from_short fmt_H (_data_buffer self) 16) by (simpl; lia).
    reflexivity.
  - intros Hb4 Hlen. rewrite Hb4. simpl.
    destruct (unpack_from_long fmt_B (_data_buffer self) 6) as [v1 H1];
      [simpl; lia|].
    destruct (unpack_from_long fmt_B (_data_buffer self) 7) as [v2 H2];
      [simpl; lia|].
    destruct (unpack_from_long fmt_H (_data_buffer self) 16) as [v3 H3];
      [simpl; lia|].
    destruct (unpack_from_long fmt_I (_data_buffer self) 8) as [v4 H4];
      [simpl; lia|].
    destruct (unpack_from_long fmt_I (_data_buffer self) 12) as [v5 H5];
      [simpl; lia|].
    rewrite H1, H2, H3, H4, H5. exists v4. split; reflexivity.
Qed.

(** A fresh driver, whose buffer is 512 zero bytes, and a driver whose
    buffer was cut to four bytes. *)
Lemma parse_sensor_id_outcomes_witness :
  let self := fresh (silent 0) in
  let cut := BNO080.mk [x00; x00; x00; x00] [0; 0; 0; 0; 0; 0] true false false
               ∅ (silent 0) in
  fst (_parse_sensor_id self) = Ok None
  /\ fst (_parse_sensor_id cut) = Raise IndexError.
Proof.
  cbv zeta. split.
  - destruct (parse_sensor_id_outcomes (fresh (silent 0)))
      as (_ & _ & Hnone & _).
    apply (Hnone 0); [reflexivity | discriminate].
  - destruct (parse_sensor_id_outcomes
                (BNO080.mk [x00; x00; x00; x00] [0; 0; 0; 0; 0; 0] true false
                   false ∅ (silent 0))) as (_ & Hshort & _).
    apply Hshort. simpl. lia.
Defined.

(** One pass of the [while True] loop of [_enable_feature]. *)
Lemma enable_feature_loop_step (self_initialize : M unit) (fuel : nat)
    (feature_id : Z) (self : BNO080.t) :
  enable_feature_loop self_initialize (S fuel) feature_id self
  = match _wait_for_packet_type self_initialize _BNO_CHANNEL_CONTROL
            (Some _BNO_CMD_GET_FEATURE_RESPONSE) default_timeout self with
    | (Ok packet, self1) =>
        match getitem (Packet.data packet) 1 with
        | Ok b1 =>
            if b1 =? feature_id then
              (Ok true,
               set_readings
                 (<[feature_id := zero_reading feature_id]> (_readings self1))
                 self1)
            else enable_feature_loop self_initialize fuel feature_id self1
        | Raise e => (Raise e, self1)
        | OutOfFuel => (OutOfFuel, self1)
        end
    | (Raise e, self1) => (Raise e, self1)
    | (OutOfFuel, self1) => (OutOfFuel, self1)
    end.
Proof.
  simpl. unfold bind, modify, ret, lift, zero_reading.
  destruct (_wait_for_packet_type _ _ _ _ self) as [[p|e|] self1];
    try reflexivity.
  destruct (getitem (Packet.data p) 1) as [b1|e|]; try reflexivity.
  destruct (b1 =? feature_id); [|reflexivity].
  destruct (feature_id =? _BNO_REPORT_ROTATION_VECTOR); reflexivity.
Qed.

Lemma enable_feature_loop_returns (self_initialize : M unit) (feature_id : Z)
    (fuel : nat) :
  forall (self self' : BNO080.t) (b : bool),
    enable_feature_loop self_initialize fuel feature_id self = (Ok b, self') ->
    b = true
    /\ _readings self' !! feature_id = Some (zero_reading feature_id)
    /\ exists p : Packet.t,
         Packet.init (_data_buffer self') = Ok p
         /\ Packet.channel_number p = _BNO_CHANNEL_CONTROL
         /\ Packet.report_id p = Ok _BNO_CMD_GET_FEATURE_RESPONSE
         /\ getitem (Packet.data p) 1 = Ok feature_id.
Proof.
  induction fuel as [|fuel IH]; intros self self' b Hrun; [discriminate Hrun|].
  rewrite enable_feature_loop_step in Hrun.
  destruct (_wait_for_packet_type _ _ _ _ self) as [[p|e|] self1] eqn:Hwait;
    try discriminate Hrun.
  destruct (getitem (Packet.data p) 1) as [b1|e|] eqn:Hecho;
    try discriminate Hrun.
  destruct (Z.eqb_spec b1 feature_id) as [Heq|Hne];
    [|apply IH in Hrun; exact Hrun].
  inversion Hrun; subst b self' b1. simpl.
  split; [reflexivity|]. split; [apply lookup_insert_eq|].
  apply wait_for_packet_type_buffer in Hwait as (Hwanted & Hinit & _).
  apply wanted_true in Hwanted as [Hchannel Hreport].
  exists p. split; [exact Hinit|]. split; [exact Hchannel|].
  split; [apply Hreport; [reflexivity | discriminate] | exact Hecho].
Qed.

(** X10: [_enable_feature] returns nothing but [True], and only after a
    Control-channel get-feature response (report 0xFC) whose byte 1 echoes
    the requested feature id: the receive buffer holds that response when
    the call returns, and [_readings] then maps the id to a tuple of zeros,
    four of them for the rotation vector and three for any other id.  A
    response that echoes another id is passed over.  A feature id that does
    not fit a byte raises [ValueError] before anything is sent. *)
Theorem enable_feature_completes (self_initialize : M unit) (fuel : nat)
    (feature_id : Z) (self : BNO080.t) :
  (forall (self' : BNO080.t) (b : bool),
      _enable_feature self_initialize fuel feature_id self = (Ok b, self') ->
      b = true
      /\ _readings self' !! feature_id
         = Some (if feature_id =? 5
                 then [0%float; 0%float; 0%float; 0%float]
                 else [0%float; 0%float; 0%float])
      /\ exists p : Packet.t,
           Packet.init (_data_buffer self') = Ok p
           /\ Packet.channel_number p = _BNO_CHANNEL_CONTROL
           /\ Packet.report_id p = Ok _BNO_CMD_GET_FEATURE_RESPONSE
           /\ getitem (Packet.data p) 1 = Ok feature_id)
  /\ (forall (p : Packet.t) (self1 : BNO080.t) (echo : Z),
        _wait_for_packet_type self_initialize _BNO_CHANNEL_CONTROL
          (Some _BNO_CMD_GET_FEATURE_RESPONSE) default_timeout self
        = (Ok p, self1) ->
        getitem (Packet.data p) 1 = Ok echo ->
        echo <> feature_id ->
        enable_feature_loop self_initialize (S fuel) feature_id self
        = enable_feature_loop self_initialize fuel feature_id self1)
  /\ (~ 0 <= feature_id < 256 ->
      _enable_feature self_initialize fuel feature_id self
      = (Raise ValueError, self)).
Proof.
  split; [|split].
  - intros self' b Hrun. unfold _enable_feature, bind, lift in Hrun.
    destruct (_get_feature_enable_report feature_id) as [report|e|];
      try discriminate Hrun.
    destruct (_send_packet _ _ self) as [[u|e|] self0]; try discriminate Hrun.
    apply enable_feature_loop_returns in Hrun. exact Hrun.
  - intros p self1 echo Hwait Hecho Hne.
    rewrite enable_feature_loop_step, Hwait, Hecho.
    destruct (Z.eqb_spec echo feature_id); [contradiction | reflexivity].
  - intros Hid. unfold _enable_feature, bind, lift, _get_feature_enable_report.
    assert (Hout : (0 <=? feature_id) && (feature_id <? 256) = false).
    { apply andb_false_iff.
      destruct (Z.leb_spec 0 feature_id);
        [right; apply Z.ltb_ge; lia | left; reflexivity]. }
    rewrite Hout. reflexivity.
Qed.

(** The accelerometer is enabled by the second response, the first one
    echoing the gyroscope; and a feature id of 256 is refused. *)
Lemma enable_feature_completes_witness :
  let self := fresh gyroscope_then_accelerometer in
  let out := _enable_feature (initialize 0) 2 _BNO_REPORT_ACCELEROMETER self in
  fst out = Ok true
  /\ _readings (snd out) !! _BNO_REPORT_ACCELEROMETER
     = Some [0%float; 0%float; 0%float]
  /\ _enable_feature (initialize 0) 2 256 self = (Raise ValueError, self).
Proof.
  cbv zeta.
  destruct (enable_feature_completes (initialize 0) 2 _BNO_REPORT_ACCELEROMETER
              (fresh gyroscope_then_accelerometer)) as (Hdone & _ & _).
  destruct (enable_feature_completes (initialize 0) 2 256
              (fresh gyroscope_then_accelerometer)) as (_ & _ & Hrefused).
  destruct (Hdone
              (snd (_enable_feature (initialize 0) 2 _BNO_REPORT_ACCELEROMETER
                      (fresh gyroscope_then_accelerometer)))
              true) as (_ & Hreading & _).
  - vm_compute. reflexivity.
  - split; [vm_compute; reflexivity|]. split; [exact Hreading|].
    apply Hrefused. lia.
Defined.

(** ** The poll: a frame that arrives after idle polls *)

Lemma bind_ret_run {A : Type} (c : M A) (self : BNO080.t) :
  bind c (fun a => ret a) self = c self.
Proof. unfold bind, ret. destruct (c self) as [[a|e|] s]; reflexivity. Qed.

Lemma wait_for_packet_loop_idle (timeout start : Z) (raw : list byte)
    (rest : list BusEvent) (k : nat) :
  forall (fuel : nat) (self : BNO080.t),
    inbound (world self) = replicate k Idle ++ Frame raw :: rest ->
    now (world self) - start + Z.of_nat k < timeout ->
    (k < fuel)%nat ->
    wait_for_packet_loop fuel timeout start self
    = _read_packet
        (set_world
           (mkWorld (now (world self) + Z.of_nat k + 1) (Frame raw :: rest)
              (outbound (world self)) (resets (world self)))
           self).
Proof.
  induction k as [|k IH]; intros fuel self Hin Hbefore Hfuel;
    (destruct fuel as [|fuel]; [lia|]); simpl in Hin;
    simpl wait_for_packet_loop;
    unfold bind at 1; unfold _elapsed, monotonic, gets, bind at 1, ret at 1;
    simpl;
    (destruct (Z.ltb_spec (now (world self) - start) timeout); [|lia]);
    unfold bind at 1; unfold _data_ready; rewrite Hin; simpl.
  - rewrite bind_ret_run. rewrite Z.add_0_r. reflexivity.
  - rewrite (IH fuel); simpl; [|reflexivity|lia|lia].
    unfold set_world. simpl. do 3 f_equal. lia.
Qed.

Lemma wait_for_packet_loop_silent (timeout start : Z) (tail : list BusEvent)
    (n : nat) :
  forall (fuel : nat) (self : BNO080.t),
    inbound (world self) = replicate n Idle ++ tail ->
    now (world self) - start + Z.of_nat n = timeout ->
    (n < fuel)%nat ->
    wait_for_packet_loop fuel timeout start self
    = (Raise Timeout_packet,
       set_world
         (mkWorld (now (world self) + Z.of_nat n) tail (outbound (world self))
            (resets (world self)))
         self).
Proof.
  induction n as [|n IH]; intros fuel self Hin Hleft Hfuel;
    (destruct fuel as [|fuel]; [lia|]); simpl in Hin;
    simpl wait_for_packet_loop;
    unfold bind at 1; unfold _elapsed, monotonic, gets, bind at 1, ret at 1;
    simpl.
  - destruct (Z.ltb_spec (now (world self) - start) timeout); [lia|].
    unfold raise. f_equal.
    destruct self as [buf trk f1 f2 f3 rd [t inb out rs]]. simpl in *.
    subst inb. unfold set_world. simpl. do 2 f_equal. lia.
  - destruct (Z.ltb_spec (now (world self) - start) timeout); [|lia].
    unfold bind at 1; unfold _data_ready; rewrite Hin; simpl.
    rewrite (IH fuel); simpl; [|reflexivity|lia|lia].
    unfold set_world. simpl. do 3 f_equal. lia.
Qed.

(** X11: when the transport is idle for [k] polls and then has a frame,
    [_wait_for_packet] reads that frame, [k + 1] milliseconds after it
    started, if [k] is below the timeout; if the timeout is [k] or less it
    raises its timeout error when exactly [timeout] milliseconds have
    passed, the frame still waiting in the transport and nothing of the
    driver changed. *)
Theorem wait_for_packet_after_idle (timeout : Z) (k : nat) (raw : list byte)
    (rest : list BusEvent) (self : BNO080.t) :
  inbound (world self) = replicate k Idle ++ Frame raw :: rest ->
  (Z.of_nat k < timeout ->
   _wait_for_packet timeout self
   = _read_packet
       (BNO080.mk (_data_buffer self) (_sequence_number self)
          (_wait_for_initialize self) (_init_complete self) (_id_read self)
          (_readings self)
          (mkWorld (now (world self) + Z.of_nat k + 1) (Frame raw :: rest)
             (outbound (world self)) (resets (world self)))))
  /\ (0 <= timeout <= Z.of_nat k ->
      exists self',
        _wait_for_packet timeout self = (Raise Timeout_packet, self')
        /\ now (world self') = now (world self) + timeout
        /\ inbound (world self')
           = replicate (k - Z.to_nat timeout) Idle ++ Frame raw :: rest
        /\ _data_buffer self' = _data_buffer self
        /\ _sequence_number self' = _sequence_number self
        /\ _wait_for_initialize self' = _wait_for_initialize self
        /\ _init_complete self' = _init_complete self
        /\ _id_read self' = _id_read self
        /\ _readings self' = _readings self).
Proof.
  intros Hin. unfold _wait_for_packet, bind, monotonic, gets. split.
  - intros Hk.
    rewrite (wait_for_packet_loop_idle timeout (now (world self)) raw rest k)
      by (assumption || lia).
    reflexivity.
  - intros Hk.
    assert (Hsplit : inbound (world self)
                     = replicate (Z.to_nat timeout) Idle
                       ++ (replicate (k - Z.to_nat timeout) Idle
                           ++ Frame raw :: rest)).
    { rewrite Hin, app_assoc, <- replicate_add. do 2 f_equal. lia. }
    rewrite (wait_for_packet_loop_silent timeout (now (world self))
               (replicate (k - Z.to_nat timeout) Idle ++ Frame raw :: rest)
               (Z.to_nat timeout) (S (Z.to_nat timeout)) self Hsplit)
      by lia.
    eexists. split; [reflexivity|]. simpl. repeat split; try reflexivity. lia.
Qed.

(** The environment of [late_arrival]: six seconds of idle polls, then a
    frame.  A poll with a limit of 15 seconds reads the frame; a poll with a
    limit of 5 seconds gives up after 5 seconds. *)
Lemma wait_for_packet_after_idle_witness :
  let self := fresh late_arrival in
  _wait_for_packet 15000 self
  = _read_packet
      (BNO080.mk (_data_buffer self) (_sequence_number self)
         (_wait_for_initialize self) (_init_complete self) (_id_read self)
         (_readings self)
         (mkWorld 6001 [feature_response] [] 0))
  /\ exists self',
       _wait_for_packet 5000 self = (Raise Timeout_packet, self')
       /\ now (world self') = 5000.
Proof.
  cbv zeta. unfold feature_response, frame.
  destruct (wait_for_packet_after_idle 15000 (Z.to_nat 6000) _ []
              (fresh late_arrival) eq_refl) as [Hread _].
  destruct (wait_for_packet_after_idle 5000 (Z.to_nat 6000) _ []
              (fresh late_arrival) eq_refl) as [_ Hquit].
  split.
  - apply Hread. vm_compute. reflexivity.
  - destruct Hquit as (self' & Hrun & Hnow & _); [vm_compute; split; discriminate|].
    exists self'. split; [exact Hrun | exact Hnow].
Defined.

(** ** The accessors *)

Lemma acceleration_step (self_initialize : M unit) (fuel : nat) (self : BNO080.t) :
  acceleration self_initialize (S fuel) self
  = match _wait_for_packet_type self_initialize
            _BNO_CHANNEL_INPUT_SENSOR_REPORTS None default_timeout self with
    | (Ok p, self1) =>
        match getitem (Packet.data p) 5 with
        | Ok b5 =>
            if b5 =? _BNO_REPORT_ACCELEROMETER
            then (_parse_report_data p, self1)
            else acceleration self_initialize fuel self1
        | Raise e => (Raise e, self1)
        | OutOfFuel => (OutOfFuel, self1)
        end
    | (Raise e, self1) => (Raise e, self1)
    | (OutOfFuel, self1) => (OutOfFuel, self1)
    end.
Proof.
  simpl. unfold bind, lift.
  destruct (_wait_for_packet_type _ _ _ _ self) as [[p|e|] self1];
    try reflexivity.
  destruct (getitem (Packet.data p) 5) as [b5|e|]; try reflexivity.
  destruct (b5 =? _BNO_REPORT_ACCELEROMETER); reflexivity.
Qed.

Lemma linear_acceleration_step (self_initialize : M unit) (fuel : nat)
    (self : BNO080.t) :
  linear_acceleration self_initialize (S fuel) self
  = match _wait_for_packet_type self_initialize
            _BNO_CHANNEL_INPUT_SENSOR_REPORTS None default_timeout self with
    | (Ok p, self1) =>
        match getitem (Packet.data p) 5 with
        | Ok b5 =>
            if b5 =? _BNO_REPORT_LINEAR_ACCELERATION
            then (_parse_report_data p, self1)
            else linear_acceleration self_initialize fuel self1
        | Raise e => (Raise e, self1)
        | OutOfFuel => (OutOfFuel, self1)
        end
    | (Raise e, self1) => (Raise e, self1)
    | (OutOfFuel, self1) => (OutOfFuel, self1)
    end.
Proof.
  simpl. unfold bind, lift.
  destruct (_wait_for_packet_type _ _ _ _ self) as [[p|e|] self1];
    try reflexivity.
  destruct (getitem (Packet.data p) 5) as [b5|e|]; try reflexivity.
  destruct (b5 =? _BNO_REPORT_LINEAR_ACCELERATION); reflexivity.
Qed.

(** What a decoded packet is: its payload resolves to the accelerometer. *)
Lemma parse_ok_resolves (p : Packet.t) (values : list float) :
  _parse_report_data p = Ok values ->
  resolve_report_id p = Ok _BNO_REPORT_ACCELEROMETER /\ length values = 3%nat.
Proof.
  intros Hrun. unfold _parse_report_data in Hrun.
  destruct (resolve_report_id p) as [rid|e|] eqn:Hrid; try discriminate Hrun.
  cbv beta iota delta [rbind] in Hrun. unfold dict_getitem in Hrun.
  destruct (_ENABLED_SENSOR_REPORTS !! rid) as [[scalar count]|] eqn:Hget;
    try discriminate Hrun.
  apply enabled_lookup in Hget as (-> & -> & ->).
  apply scale_fields_ok in Hrun as [Hlen _]. split; [reflexivity | exact Hlen].
Qed.

Lemma acceleration_returns (self_initialize : M unit) (fuel : nat) :
  forall (self self' : BNO080.t) (values : list float),
    acceleration self_initialize fuel self = (Ok values, self') ->
    exists p : Packet.t,
      Packet.init (_data_buffer self') = Ok p
      /\ Packet.channel_number p = _BNO_CHANNEL_INPUT_SENSOR_REPORTS
      /\ getitem (Packet.data p) 5 = Ok _BNO_REPORT_ACCELEROMETER
      /\ _parse_report_data p = Ok values
      /\ length values = 3%nat.
Proof.
  induction fuel as [|fuel IH]; intros self self' values Hrun;
    [discriminate Hrun|].
  rewrite acceleration_step in Hrun.
  destruct (_wait_for_packet_type _ _ _ _ self) as [[p|e|] self1] eqn:Hwait;
    try discriminate Hrun.
  destruct (getitem (Packet.data p) 5) as [b5|e|] eqn:Hb5;
    try discriminate Hrun.
  destruct (Z.eqb_spec b5 _BNO_REPORT_ACCELEROMETER) as [->|Hne];
    [|apply IH in Hrun; exact Hrun].
  injection Hrun as Hparse Hself. subst self'.
  apply wait_for_packet_type_buffer in Hwait as (Hwanted & Hinit & _).
  apply wanted_true in Hwanted as [Hchannel _].
  exists p. split; [exact Hinit|]. split; [exact Hchannel|].
  split; [exact Hb5|]. split; [exact Hparse|].
  apply parse_ok_resolves in Hparse as [_ Hlen]. exact Hlen.
Qed.

(** X12: when [acceleration] returns a tuple, the receive buffer holds the
    packet it decoded: a packet on channel 3 whose payload byte 5 is the
    accelerometer id, and the tuple is what [_parse_report_data] gives for
    it, three values.  A packet on channel 3 with another byte 5 is
    dropped: the loop goes on from the instance as the read left it,
    without a call of [_handle_packet] for that packet. *)
Theorem acceleration_decodes_accelerometer (self_initialize : M unit)
    (fuel : nat) (self : BNO080.t) :
  (forall (self' : BNO080.t) (values : list float),
      acceleration self_initialize fuel self = (Ok values, self') ->
      exists p : Packet.t,
        Packet.init (_data_buffer self') = Ok p
        /\ Packet.channel_number p = _BNO_CHANNEL_INPUT_SENSOR_REPORTS
        /\ getitem (Packet.data p) 5 = Ok _BNO_REPORT_ACCELEROMETER
        /\ _parse_report_data p = Ok values
        /\ length values = 3%nat)
  /\ (forall (p : Packet.t) (self1 : BNO080.t) (b5 : Z),
        _wait_for_packet_type self_initialize
          _BNO_CHANNEL_INPUT_SENSOR_REPORTS None default_timeout self
        = (Ok p, self1) ->
        getitem (Packet.data p) 5 = Ok b5 ->
        b5 <> _BNO_REPORT_ACCELEROMETER ->
        acceleration self_initialize (S fuel) self
        = acceleration self_initialize fuel self1)
  /\ (forall (p : Packet.t) (self1 : BNO080.t),
        _wait_for_packet_type self_initialize
          _BNO_CHANNEL_INPUT_SENSOR_REPORTS None default_timeout self
        = (Ok p, self1) ->
        getitem (Packet.data p) 5 = Ok _BNO_REPORT_ACCELEROMETER ->
        acceleration self_initialize (S fuel) self
        = (_parse_report_data p, self1)).
Proof.
  split; [apply acceleration_returns|]. split.
  - intros p self1 b5 Hwait Hb5 Hne.
    rewrite acceleration_step, Hwait, Hb5.
    destruct (Z.eqb_spec b5 _BNO_REPORT_ACCELEROMETER); [contradiction|].
    reflexivity.
  - intros p self1 Hwait Hb5. rewrite acceleration_step, Hwait, Hb5.
    reflexivity.
Qed.

(** A gyroscope report, then an accelerometer report that carries 4000: the
    first is dropped, the second is decoded. *)
Lemma acceleration_decodes_accelerometer_witness :
  let self := fresh gyroscope_then_acceleration in
  let out := acceleration (initialize 0) 2 self in
  fst out = Ok [15.625%float; (-2.046875)%float; 7.66796875%float]
  /\ exists p : Packet.t,
       Packet.init (_data_buffer (snd out)) = Ok p
       /\ Packet.channel_number p = _BNO_CHANNEL_INPUT_SENSOR_REPORTS
       /\ getitem (Packet.data p) 5 = Ok _BNO_REPORT_ACCELEROMETER
       /\ _parse_report_data p
          = Ok [15.625%float; (-2.046875)%float; 7.66796875%float]
       /\ length [15.625%float; (-2.046875)%float; 7.66796875%float] = 3%nat.
Proof.
  cbv zeta. split; [vm_compute; reflexivity|].
  destruct (acceleration_decodes_accelerometer (initialize 0) 2
              (fresh gyroscope_then_acceleration)) as (Hdone & _).
  apply (Hdone (snd (acceleration (initialize 0) 2
                       (fresh gyroscope_then_acceleration)))).
  vm_compute. reflexivity.
Defined.

Lemma linear_acceleration_returns (self_initialize : M unit) (fuel : nat) :
  forall (self self' : BNO080.t) (values : list float),
    linear_acceleration self_initialize fuel self = (Ok values, self') ->
    exists p : Packet.t,
      Packet.init (_data_buffer self') = Ok p
      /\ Packet.channel_number p = _BNO_CHANNEL_INPUT_SENSOR_REPORTS
      /\ getitem (Packet.data p) 5 = Ok _BNO_REPORT_LINEAR_ACCELERATION
      /\ Packet.report_id p = Ok _BNO_REPORT_ACCELEROMETER
      /\ _parse_report_data p = Ok values.
Proof.
  induction fuel as [|fuel IH]; intros self self' values Hrun;
    [discriminate Hrun|].
  rewrite linear_acceleration_step in Hrun.
  destruct (_wait_for_packet_type _ _ _ _ self) as [[p|e|] self1] eqn:Hwait;
    try discriminate Hrun.
  destruct (getitem (Packet.data p) 5) as [b5|e|] eqn:Hb5;
    try discriminate Hrun.
  destruct (Z.eqb_spec b5 _BNO_REPORT_LINEAR_ACCELERATION) as [->|Hne];
    [|apply IH in Hrun; exact Hrun].
  injection Hrun as Hparse Hself. subst self'.
  apply wait_for_packet_type_buffer in Hwait as (Hwanted & Hinit & _).
  apply wanted_true in Hwanted as [Hchannel _].
  exists p. split; [exact Hinit|]. split; [exact Hchannel|].
  split; [exact Hb5|]. split; [|exact Hparse].
  apply parse_ok_resolves in Hparse as [Hresolve _].
  unfold resolve_report_id in Hresolve.
  destruct (Packet.report_id p) as [first|e|]; try discriminate Hresolve.
  simpl in Hresolve.
  destruct (Z.eqb_spec first _BNO_CMD_BASE_TIMESTAMP) as [Hmarker|_];
    [|exact Hresolve].
  rewrite Hb5 in Hresolve. discriminate Hresolve.
Qed.

(** X13: [linear_acceleration] cannot decode a linear-acceleration report.
    For a packet on channel 3 whose payload byte 5 is the
    linear-acceleration id and whose first byte is the base-timestamp marker
    or that id itself, it raises [KeyError(4)]; whenever it does return a
    tuple, the packet it decoded starts with the accelerometer id and only
    has a 4 at byte 5. *)
Theorem linear_acceleration_raises_key_error (self_initialize : M unit)
    (fuel : nat) (self : BNO080.t) :
  (forall (p : Packet.t) (self1 : BNO080.t) (first : Z),
      _wait_for_packet_type self_initialize
        _BNO_CHANNEL_INPUT_SENSOR_REPORTS None default_timeout self
      = (Ok p, self1) ->
      getitem (Packet.data p) 5 = Ok _BNO_REPORT_LINEAR_ACCELERATION ->
      Packet.report_id p = Ok first ->
      first = _BNO_CMD_BASE_TIMESTAMP \/ first = _BNO_REPORT_LINEAR_ACCELERATION ->
      linear_acceleration self_initialize (S fuel) self
      = (Raise (KeyError _BNO_REPORT_LINEAR_ACCELERATION), self1))
  /\ (forall (self' : BNO080.t) (values : list float),
        linear_acceleration self_initialize fuel self = (Ok values, self') ->
        exists p : Packet.t,
          Packet.init (_data_buffer self') = Ok p
          /\ Packet.channel_number p = _BNO_CHANNEL_INPUT_SENSOR_REPORTS
          /\ getitem (Packet.data p) 5 = Ok _BNO_REPORT_LINEAR_ACCELERATION
          /\ Packet.report_id p = Ok _BNO_REPORT_ACCELEROMETER
          /\ _parse_report_data p = Ok values).
Proof.
  split; [|apply linear_acceleration_returns].
  intros p self1 first Hwait Hb5 Hfirst Hkind.
  rewrite linear_acceleration_step, Hwait, Hb5. simpl. f_equal.
  apply parse_report_data_KeyError. split; [|reflexivity].
  unfold resolve_report_id. rewrite Hfirst. simpl.
  destruct Hkind as [->| ->]; [exact Hb5 | reflexivity].
Qed.

(** A timestamped linear-acceleration report, met by a fresh driver. *)
Lemma linear_acceleration_raises_key_error_witness :
  let self := fresh linear_acceleration_report in
  let wait := _wait_for_packet_type (initialize 0)
                _BNO_CHANNEL_INPUT_SENSOR_REPORTS None default_timeout self in
  linear_acceleration (initialize 0) 1 self
  = (Raise (KeyError _BNO_REPORT_LINEAR_ACCELERATION), snd wait).
Proof.
  cbv zeta.
  destruct (linear_acceleration_raises_key_error (initialize 0) 0
              (fresh linear_acceleration_report)) as (Hraise & _).
  apply (Hraise
           (packet_of
              (_wait_for_packet_type (initialize 0)
                 _BNO_CHANNEL_INPUT_SENSOR_REPORTS None default_timeout
                 (fresh linear_acceleration_report)))
           (snd (_wait_for_packet_type (initialize 0)
                   _BNO_CHANNEL_INPUT_SENSOR_REPORTS None default_timeout
                   (fresh linear_acceleration_report)))
           _BNO_CMD_BASE_TIMESTAMP).
  - vm_compute. reflexivity.
  - vm_compute. reflexivity.
  - vm_compute. reflexivity.
  - left. reflexivity.
Defined.
